(** * BitGlider / Retro Notes Manager: the record store and the secure exporter

    A shallow embedding of [notes_app/app.py].

    Conventions of the embedding.
    - A Python [str] is a Rocq [string]; each character stands for the code
      point of the same number (0..255).
    - A Python [int] is a [Z].  [int()] on a string obeys the interpreter's
      cap of 4300 digits.  An integer cell of a loaded workbook was built by
      [int()] from the text of the file, so it is below the cap and
      [str()] of it is its decimal rendering.
    - The workbook file [notes_database.xlsx] is the state: it either does not
      exist, or holds the header row followed by the data rows.  Since the
      header has five columns every row iterated by [iter_rows] has the five
      cells the program indexes; a row is the record of these five cells, as
      [load_workbook] hands them over.  No cell carries a style or a
      comment.
    - [openpyxl] is modelled where it changes what the program gives it.
      Assigning a string to a cell ([check_string]) cuts it at 32767
      characters and raises [IllegalCharacterError] on a control character.
      [save] writes a number with 16 significant digits and leaves out a
      cell without a value; of the empty string it writes the cell and no
      text.  [load_workbook] reads such a number back as an [int] or as a
      [float], reads a carriage return as a line feed (the workbook is
      written without [lxml]), reads the cell of the empty string as an
      empty cell, and ends the sheet at the last row that has a cell.  How
      a cell of a type that the program never writes (a float, a date)
      comes back is a parameter, [reread_other].
    - [workbook.save] fails in the model only with the [OverflowError] of
      an integer that no float holds; no file that this library wrote has
      such an integer.  The library then leaves a cut archive behind; the
      model leaves the file as it was, and no property stated below
      concerns the file after this failure.
    - The wall clock ([datetime.now()]), the random source ([os.urandom]) and
      the primitives of the [cryptography] package are inputs of the model. *)

From Stdlib Require Import List Sorted String Ascii ZArith NArith Lia Bool.
From Stdlib Require Import Strings.Byte.
From Stdlib Require Import DecimalString DecimalPos DecimalN.
From Stdlib Require DecimalFacts.
Import ListNotations.

Local Open Scope string_scope.
Local Open Scope Z_scope.

(* ================================================================== *)
(** * Python values and the built-ins the program applies to them      *)
(* ================================================================== *)

(** The value of a worksheet cell as [openpyxl] hands it over.  [POther]
    stands for the remaining cell types (float, datetime, time, ...): the
    program observes such a value only through [bool()], through [str()],
    and through [jsonify], which serialises a float, a date and a datetime
    ([jsonable] is [true]) and raises [TypeError] on a time and on a
    timedelta ([jsonable] is [false]). *)
Inductive pyval : Type :=
| PNone
| PBool (b : bool)
| PInt (z : Z)
| PStr (s : string)
| POther (truth : bool) (repr : string) (jsonable : bool).

(** [bool(s)] on a string. *)
Definition str_truthy (s : string) : bool :=
  match s with EmptyString => false | String _ _ => true end.

(** [bool(v)]: what [if v], [not v] and [v or d] test. *)
Definition truthy (v : pyval) : bool :=
  match v with
  | PNone => false
  | PBool b => b
  | PInt z => negb (z =? 0)
  | PStr s => str_truthy s
  | POther t _ _ => t
  end.

(** Decimal rendering of an integer, [str(n)]. *)
Definition str_of_Z (z : Z) : string :=
  match z with
  | Z0 => "0"
  | Zpos p => NilEmpty.string_of_uint (Pos.to_uint p)
  | Zneg p => String "-" (NilEmpty.string_of_uint (Pos.to_uint p))
  end.

(** [str(v)]. *)
Definition py_str (v : pyval) : string :=
  match v with
  | PNone => "None"
  | PBool true => "True"
  | PBool false => "False"
  | PInt z => str_of_Z z
  | PStr s => s
  | POther _ r _ => r
  end.

(** [v or d]. *)
Definition py_or (v d : pyval) : pyval := if truthy v then v else d.

Definition code (c : ascii) : Z := Z.of_N (N_of_ascii c).

(** [str.isspace] on one character, as used by [str.strip]. *)
Definition is_space (c : ascii) : bool :=
  let n := code c in
  ((9 <=? n) && (n <=? 13)) || ((28 <=? n) && (n <=? 32))
  || (n =? 133) || (n =? 160).

Fixpoint lstrip (s : string) : string :=
  match s with
  | EmptyString => EmptyString
  | String c s' => if is_space c then lstrip s' else s
  end.

Fixpoint rstrip (s : string) : string :=
  match s with
  | EmptyString => EmptyString
  | String c s' =>
      match rstrip s' with
      | EmptyString => if is_space c then EmptyString else String c EmptyString
      | r => String c r
      end
  end.

(** [s.strip()]. *)
Definition strip (s : string) : string := rstrip (lstrip s).

(** ** [int(s)] on a string

    CPython first maps non-ASCII white space to a blank, then reads: blanks,
    an optional sign, decimal digits where single underscores may separate
    two digits, blanks, end of string.  Everything else is a [ValueError],
    and so is a literal of more than 4300 digits. *)

Definition int_space (c : ascii) : bool :=
  let n := code c in
  ((9 <=? n) && (n <=? 13)) || (n =? 32) || (n =? 133) || (n =? 160).

Definition digit_of (c : ascii) : option Z :=
  let n := code c in
  if (48 <=? n) && (n <=? 57) then Some (n - 48) else None.

Fixpoint skip_space (s : string) : string :=
  match s with
  | EmptyString => EmptyString
  | String c s' => if int_space c then skip_space s' else s
  end.

Fixpoint all_space (s : string) : bool :=
  match s with
  | EmptyString => true
  | String c s' => int_space c && all_space s'
  end.

(** The digits after the first one.  [acc] is the value read so far and
    [us] tells that the previous character was an underscore. *)
Fixpoint scan_digits (acc : Z) (us : bool) (s : string) : option Z :=
  match s with
  | EmptyString => if us then None else Some acc
  | String c s' =>
      match digit_of c with
      | Some d => scan_digits (10 * acc + d) false s'
      | None =>
          if us then None
          else if Ascii.eqb c "_" then scan_digits acc true s'
          else if all_space s then Some acc else None
      end
  end.

Definition parse_unsigned (s : string) : option Z :=
  match s with
  | EmptyString => None
  | String c s' =>
      match digit_of c with
      | Some d => scan_digits d false s'
      | None => None
      end
  end.

(** The grammar of an integer literal; [None] when [s] is none. *)
Definition parse_int (s : string) : option Z :=
  match skip_space s with
  | String "+" r => parse_unsigned r
  | String "-" r => option_map Z.opp (parse_unsigned r)
  | r => parse_unsigned r
  end.

(** The number of digits of a literal, leading zeros included. *)
Fixpoint count_digits (s : string) : N :=
  match s with
  | EmptyString => 0%N
  | String c s' =>
      match digit_of c with
      | Some _ => N.succ (count_digits s')
      | None => count_digits s'
      end
  end.

(** [sys.get_int_max_str_digits()]. *)
Definition max_str_digits : N := 4300%N.

(** [int(s)]; [None] stands for the [ValueError]. *)
Definition py_int (s : string) : option Z :=
  match parse_int s with
  | Some z => if (count_digits s <=? max_str_digits)%N then Some z else None
  | None => None
  end.

(* ================================================================== *)
(** * Exceptions and results                                           *)
(* ================================================================== *)

Inductive exn : Type :=
| ValueError
| FileNotFoundError
| IllegalCharacterError
| OverflowError.

Inductive result (A : Type) : Type :=
| Ok (a : A)
| Raise (e : exn).
Arguments Ok {A} a.
Arguments Raise {A} e.

Definition and_then {A B} (r : result A) (k : A -> result B) : result B :=
  match r with
  | Ok a => k a
  | Raise e => Raise e
  end.

Notation "x <~ r ;; k" := (and_then r (fun x => k))
  (at level 61, r at next level, right associativity).

(** [f] on every element from left to right; the first failure raises. *)
Fixpoint map_result {A B} (f : A -> result B) (l : list A) : result (list B) :=
  match l with
  | [] => Ok []
  | a :: l' =>
      b <~ f a ;;
      bs <~ map_result f l' ;;
      Ok (b :: bs)
  end.

(* ================================================================== *)
(** * What [openpyxl] does to a value                                  *)
(* ================================================================== *)

(** ** Assigning a string to a cell *)

(** The characters of [ILLEGAL_CHARACTERS_RE]: the code points 0-8, 11, 12
    and 14-31. *)
Definition illegal_char (c : ascii) : bool :=
  let n := code c in
  (n <=? 8) || (n =? 11) || (n =? 12) || ((14 <=? n) && (n <=? 31)).

Fixpoint has_illegal_char (s : string) : bool :=
  match s with
  | EmptyString => false
  | String c s' => illegal_char c || has_illegal_char s'
  end.

(** [s[:n]]. *)
Fixpoint take_chars (n : N) (s : string) : string :=
  match s with
  | EmptyString => EmptyString
  | String c s' =>
      if (n =? 0)%N then EmptyString else String c (take_chars (N.pred n) s')
  end.

(** The longest string a cell takes. *)
Definition max_cell_length : N := 32767%N.

(** [Cell.check_string]: the value is cut first and checked afterwards. *)
Definition check_string (s : string) : result string :=
  let v := take_chars max_cell_length s in
  if has_illegal_char v then Raise IllegalCharacterError else Ok v.

(** ** A string cell, saved and loaded *)

Definition CR : ascii := ascii_of_N 13.
Definition LF : ascii := ascii_of_N 10.

(** The end-of-line handling of the XML reader: a carriage return followed
    by a line feed, and a carriage return alone, are read as one line
    feed. *)
Fixpoint normalize_newlines (s : string) : string :=
  match s with
  | EmptyString => EmptyString
  | String c s' =>
      if Ascii.eqb c CR then
        match s' with
        | String c' _ =>
            if Ascii.eqb c' LF then normalize_newlines s'
            else String LF (normalize_newlines s')
        | EmptyString => String LF EmptyString
        end
      else String c (normalize_newlines s')
  end.

(** The value of a string cell after [save] and [load_workbook]; the cell of
    the empty string comes back empty. *)
Definition text_readback (s : string) : pyval :=
  match normalize_newlines s with
  | EmptyString => PNone
  | v => PStr v
  end.

(** ** A number cell, saved and loaded

    The writer formats a number with ["%.16g"], which first converts an
    [int] to a [float]; the reader builds a [float] when the text has a
    point or an exponent and an [int] otherwise. *)

(** [float(n)] for an integer [n >= 0]: the nearest integer with 53
    significant bits, a tie going to the even one.  [None] is the
    [OverflowError]. *)
Definition to_double (n : Z) : option Z :=
  if n <=? 2 ^ 53 then Some n
  else
    let e := Z.log2 n - 52 in
    let q := Z.shiftr n e in
    let rest := n - Z.shiftl q e in
    let half := Z.shiftl 1 (e - 1) in
    let q' := if rest <? half then q
              else if half <? rest then q + 1
              else if Z.even q then q else q + 1 in
    let x := Z.shiftl q' e in
    if x <? 2 ^ 1024 then Some x else None.

(** The number of decimal digits of [n > 0]. *)
Definition digits10 (n : Z) : Z := Z.of_nat (String.length (str_of_Z n)).

(** [x / p] rounded to the nearest integer, a tie going to the even one. *)
Definition round_half_even (x p : Z) : Z :=
  let q := x / p in
  let rest := x mod p in
  if 2 * rest <? p then q
  else if p <? 2 * rest then q + 1
  else if Z.even q then q else q + 1.

(** [x >= 10^16] rounded to 16 significant digits: the number that the
    text of ["%.16g" % x] denotes. *)
Definition round16 (x : Z) : Z :=
  let p := 10 ^ (digits10 x - 16) in
  round_half_even x p * p.

Fixpoint strip_zeros (s : string) : string :=
  match s with
  | EmptyString => EmptyString
  | String c s' =>
      match strip_zeros s' with
      | EmptyString =>
          if Ascii.eqb c "0" then EmptyString else String c EmptyString
      | r => String c r
      end
  end.

(** The integer [c >= 10^16] in the exponent notation of [repr]:
    [d.ddde+XX] without trailing zeros. *)
Definition exp_format (c : Z) : string :=
  let e := digits10 c - 1 in
  match strip_zeros (str_of_Z c) with
  | EmptyString => "0"
  | String d EmptyString => String d ("e+" ++ str_of_Z e)
  | String d r => String d ("." ++ r ++ "e+" ++ str_of_Z e)
  end.

(** [float(c) == y]. *)
Definition rounds_to (y c : Z) : bool :=
  match to_double c with
  | Some v => v =? y
  | None => false
  end.

(** The shortest decimal that [float()] reads as [y], the nearest to [y]
    among those of the same length: a multiple of [10^k] next to [y] for
    the largest [k] that has one. *)
Fixpoint shortest (y : Z) (k : nat) : Z :=
  match k with
  | O => y
  | S k' =>
      let p := 10 ^ Z.of_nat k in
      let lo := (y / p) * p in
      let hi := lo + p in
      match rounds_to y lo, rounds_to y hi with
      | true, true => if y - lo <=? hi - y then lo else hi
      | true, false => lo
      | false, true => hi
      | false, false => shortest y k'
      end
  end.

(** [repr(y)] for a float [y >= 10^16]. *)
Definition float_repr (y : Z) : string :=
  exp_format (shortest y (Z.to_nat (digits10 y - 1))).

(** The value of an integer cell after [save] and [load_workbook]: the
    integer itself up to 2^53, the nearest float as an integer below 10^16,
    and a float cell from there on. *)
Definition number_readback (z : Z) : result pyval :=
  match to_double (Z.abs z) with
  | None => Raise OverflowError
  | Some x =>
      if x <? 10 ^ 16 then Ok (PInt (Z.sgn z * x))
      else
        let sign := if z <? 0 then "-" else "" in
        match to_double (round16 x) with
        | Some y => Ok (POther true (sign ++ float_repr y) true)
        | None => Ok (POther true (sign ++ "inf") true)
        end
  end.

(** ** The other cells *)

(** How a cell of another type (a float, a date, a time) comes back after
    [save] and [load_workbook]; the program never writes such a cell. *)
Class Openpyxl : Type := {
  reread_other : forall (truth : bool) (repr : string) (jsonable : bool), pyval
}.

(** The library that gives such a cell back as it was. *)
Definition others_kept : Openpyxl := {| reread_other := POther |}.

(* ================================================================== *)
(** * The workbook file as state                                       *)
(* ================================================================== *)

(** One worksheet row: the cells of the columns [HEADERS]. *)
Record row : Type := mkRow {
  ID : pyval;
  Title : pyval;
  Content : pyval;
  DateCreated : pyval;
  LastModified : pyval
}.

(** The data rows of the sheet (rows 2.. of the file), top to bottom. *)
Definition sheet : Type := list row.

Record workbook : Type := mkWorkbook { active : sheet }.

(** The file at [DB_PATH]: absent, or a saved workbook. *)
Definition database : Type := option workbook.

(** The data rows that the file holds; none when there is no file. *)
Definition data_rows (db : database) : sheet :=
  match db with
  | Some wb => active wb
  | None => []
  end.

(** A computation that reads and writes the file and may raise. *)
Definition M (A : Type) : Type := database -> result A * database.

Definition ret {A} (a : A) : M A := fun db => (Ok a, db).

Definition bind {A B} (m : M A) (k : A -> M B) : M B :=
  fun db =>
    match m db with
    | (Ok a, db') => k a db'
    | (Raise e, db') => (Raise e, db')
    end.

Definition lift {A} (r : result A) : M A := fun db => (r, db).

Notation "x <- m ;; k" := (bind m (fun x => k))
  (at level 61, m at next level, right associativity).
Notation "m ;; k" := (bind m (fun _ => k))
  (at level 61, right associativity).

(** A note as [load_notes] builds it: the dictionary with the keys
    [id], [title], [content], [date_created], [last_modified]. *)
Module Note.
Record t : Type := mk {
  id : string;
  title : pyval;
  content : pyval;
  date_created : pyval;
  last_modified : pyval
}.
End Note.
Definition note : Type := Note.t.

(** A row without any cell: the writer leaves it out when no row with a
    cell follows. *)
Definition is_none (v : pyval) : bool :=
  match v with PNone => true | _ => false end.

Definition blank_row (r : row) : bool :=
  is_none (ID r) && is_none (Title r) && is_none (Content r)
  && is_none (DateCreated r) && is_none (LastModified r).

(** The rows up to the last one that has a cell. *)
Fixpoint drop_trailing_blank (rows : sheet) : sheet :=
  match rows with
  | [] => []
  | r :: rows' =>
      match drop_trailing_blank rows' with
      | [] => if blank_row r then [] else [r]
      | rest => r :: rest
      end
  end.

Section Store.
Context {ox : Openpyxl}.

(** One cell, saved and loaded. *)
Definition cell_readback (v : pyval) : result pyval :=
  match v with
  | PNone => Ok PNone
  | PBool b => Ok (PBool b)
  | PInt z => number_readback z
  | PStr s => Ok (text_readback s)
  | POther t r j => Ok (reread_other t r j)
  end.

Definition row_readback (r : row) : result row :=
  i <~ cell_readback (ID r) ;;
  t <~ cell_readback (Title r) ;;
  c <~ cell_readback (Content r) ;;
  d <~ cell_readback (DateCreated r) ;;
  m <~ cell_readback (LastModified r) ;;
  Ok (mkRow i t c d m).

(** The data rows that [load_workbook] finds after [save] wrote [rows]. *)
Definition reload (rows : sheet) : result sheet :=
  map_result row_readback (drop_trailing_blank rows).

(* ================================================================== *)
(** * The record store                                                 *)
(* ================================================================== *)

(** [ensure_database]: create the workbook with only the header row when the
    file does not exist. *)
Definition ensure_database : M unit :=
  fun db =>
    match db with
    | Some wb => (Ok tt, Some wb)
    | None => (Ok tt, Some (mkWorkbook []))
    end.

(** [load_workbook(DB_PATH)]. *)
Definition load_workbook : M workbook :=
  fun db =>
    match db with
    | Some wb => (Ok wb, db)
    | None => (Raise FileNotFoundError, db)
    end.

(** [workbook.save(DB_PATH)]: the file then holds what [load_workbook] will
    find. *)
Definition workbook_save (wb : workbook) : M unit :=
  fun db =>
    match reload (active wb) with
    | Ok rows => (Ok tt, Some (mkWorkbook rows))
    | Raise e => (Raise e, db)
    end.

Definition get_sheet (wb : workbook) : sheet := active wb.

(** The dictionary built from one row. *)
Definition note_of_row (r : row) : note :=
  {| Note.id := py_str (ID r);
     Note.title := py_or (Title r) (PStr "");
     Note.content := py_or (Content r) (PStr "");
     Note.date_created := py_or (DateCreated r) (PStr "");
     Note.last_modified := py_or (LastModified r) (PStr "") |}.

(** The loop of [load_notes] over the rows still to visit; [notes] is the
    list built so far. *)
Fixpoint load_notes_loop (rows : sheet) (notes : list note) : list note :=
  match rows with
  | [] => notes
  | r :: rows' =>
      if negb (truthy (ID r)) then load_notes_loop rows' notes
      else load_notes_loop rows' (notes ++ [note_of_row r])%list
  end.

Definition load_notes : M (list note) :=
  ensure_database ;;
  wb <- load_workbook ;;
  ret (load_notes_loop (get_sheet wb) []).

(** [int(note["id"]) for note in notes], consumed from left to right; the
    first conversion that fails raises. *)
Fixpoint note_ints (notes : list note) : result (list Z) :=
  match notes with
  | [] => Ok []
  | n :: notes' =>
      match py_int (Note.id n) with
      | None => Raise ValueError
      | Some z =>
          match note_ints notes' with
          | Ok zs => Ok (z :: zs)
          | Raise e => Raise e
          end
      end
  end.

(** [max] of a sequence whose first element is [z]. *)
Definition py_max (z : Z) (zs : list Z) : Z := fold_left Z.max zs z.

Definition get_next_id (notes : list note) : result Z :=
  match notes with
  | [] => Ok 1
  | _ :: _ =>
      match note_ints notes with
      | Ok (z :: zs) => Ok (py_max z zs + 1)
      | Ok [] => Raise ValueError   (* [max] of an empty sequence *)
      | Raise e => Raise e
      end
  end.

(** The three assignments of the update loop, in their order:
    [row[1].value = title], [row[2].value = content],
    [row[4].value = now]. *)
Definition set_values (r : row) (new_title new_content now : string)
    : result row :=
  t <~ check_string new_title ;;
  c <~ check_string new_content ;;
  m <~ check_string now ;;
  Ok {| ID := ID r;
        Title := PStr t;
        Content := PStr c;
        DateCreated := DateCreated r;
        LastModified := PStr m |}.

(** The update loop of [save_note]: the first row whose ID cell prints as
    [note_id] gets the new title, content and modification time.  [None]
    when the loop ends without a match. *)
Fixpoint update_row (note_id new_title new_content now : string)
    (rows : sheet) : result (option sheet) :=
  match rows with
  | [] => Ok None
  | r :: rows' =>
      if String.eqb (py_str (ID r)) note_id then
        r' <~ set_values r new_title new_content now ;;
        Ok (Some (r' :: rows'))
      else
        found <~ update_row note_id new_title new_content now rows' ;;
        match found with
        | Some rows'' => Ok (Some (r :: rows''))
        | None => Ok None
        end
  end.

(** [if note_id:] on the optional string. *)
Definition id_given (note_id : option string) : option string :=
  match note_id with
  | Some s => if str_truthy s then Some s else None
  | None => None
  end.

(** [sheet.append([new_id, title, content, now, now])]: the cells are made
    from left to right. *)
Definition sheet_append (sh : sheet) (new_id : Z)
    (new_title new_content created modified : string) : result sheet :=
  t <~ check_string new_title ;;
  c <~ check_string new_content ;;
  d <~ check_string created ;;
  m <~ check_string modified ;;
  Ok (sh ++ [mkRow (PInt new_id) (PStr t) (PStr c) (PStr d) (PStr m)])%list.

(** Lines 89-94 of [save_note]: the creation of a row.  [sh] is the sheet
    of the workbook that [save_note] holds. *)
Definition append_note (now new_title new_content : string) (sh : sheet)
    : M string :=
  notes <- load_notes ;;
  new_id <- lift (get_next_id notes) ;;
  sh' <- lift (sheet_append sh new_id new_title new_content now now) ;;
  workbook_save (mkWorkbook sh') ;;
  ret (py_str (PInt new_id)).

(** [save_note(note_id, title, content)]; [now] is the reading of the clock,
    already formatted. *)
Definition save_note (now : string) (note_id : option string)
    (new_title new_content : string) : M string :=
  ensure_database ;;
  wb <- load_workbook ;;
  let sh := get_sheet wb in
  match id_given note_id with
  | Some s =>
      found <- lift (update_row s new_title new_content now sh) ;;
      match found with
      | Some sh' =>
          workbook_save (mkWorkbook sh') ;;
          ret s
      | None => append_note now new_title new_content sh
      end
  | None => append_note now new_title new_content sh
  end.

(** The loop of [delete_note]: drop the first row whose ID cell prints as
    [note_id]. *)
Fixpoint delete_row (note_id : string) (rows : sheet) : sheet :=
  match rows with
  | [] => []
  | r :: rows' =>
      if String.eqb (py_str (ID r)) note_id then rows'
      else r :: delete_row note_id rows'
  end.

Definition delete_note (note_id : string) : M unit :=
  ensure_database ;;
  wb <- load_workbook ;;
  workbook_save (mkWorkbook (delete_row note_id (get_sheet wb))).

(** The loop of [find_note]. *)
Fixpoint find_in (note_id : string) (notes : list note) : option note :=
  match notes with
  | [] => None
  | n :: notes' =>
      if String.eqb (Note.id n) note_id then Some n else find_in note_id notes'
  end.

Definition find_note (note_id : string) : M (option note) :=
  notes <- load_notes ;;
  ret (find_in note_id notes).

(** A run of [save_note] calls without an ID, one after the other; each call
    comes with its clock reading, title and content.  The run stops at the
    first call that raises. *)
Fixpoint save_all (calls : list (string * string * string)) : M (list string) :=
  match calls with
  | [] => ret []
  | (now, new_title, new_content) :: calls' =>
      saved_id <- save_note now None new_title new_content ;;
      ids <- save_all calls' ;;
      ret (saved_id :: ids)
  end.

(* ================================================================== *)
(** * The boundary: the [/save] route                                  *)
(* ================================================================== *)

(** The fields of the posted form that the route reads; [None] is a field
    that was not sent. *)
Record form : Type := mkForm {
  form_note_id : option string;
  form_title : option string;
  form_content : option string
}.

(** [request.form.get(key, default)] on one field. *)
Definition form_get (field : option string) (default : string) : string :=
  match field with
  | Some s => s
  | None => default
  end.

(** [s or d] on strings. *)
Definition str_or (s d : string) : string := if str_truthy s then s else d.

(** The route [save()]; the value is the ID the redirect carries. *)
Definition save (now : string) (f : form) : M string :=
  let note_id := form_note_id f in
  let new_title := str_or (strip (form_get (form_title f) "Untitled")) "Untitled" in
  let new_content := strip (form_get (form_content f) "") in
  saved_id <- save_note now note_id new_title new_content ;;
  ret saved_id.

End Store.
(* ================================================================== *)
(** * The secure exporter                                              *)
(* ================================================================== *)

Definition bytes : Type := list byte.

Definition byte_val (b : byte) : Z := Z.of_N (Byte.to_N b).

Definition byte_of_Z (z : Z) : byte := byte_of_ascii (ascii_of_N (Z.to_N z)).

Definition newline : string := String (ascii_of_N 10) EmptyString.

(** [s.encode("utf-8")] for code points below 256. *)
Fixpoint utf8_encode (s : string) : bytes :=
  match s with
  | EmptyString => []
  | String c s' =>
      let n := code c in
      if n <? 128 then byte_of_Z n :: utf8_encode s'
      else byte_of_Z (Z.lor 192 (Z.shiftr n 6))
           :: byte_of_Z (Z.lor 128 (Z.land n 63))
           :: utf8_encode s'
  end.

Definition b64_alphabet : string :=
  "ABCDEFGHIJKLMNOPQRSTUVWXYZabcdefghijklmnopqrstuvwxyz0123456789+/".

(** The character of the 6-bit value [n]. *)
Definition b64_char (n : Z) : byte :=
  match String.get (Z.to_nat n) b64_alphabet with
  | Some c => byte_of_ascii c
  | None => "="%byte
  end.

(** [base64.b64encode]: three bytes give four characters; a last group of
    one or two bytes is padded with [=]. *)
Fixpoint b64encode (data : bytes) : bytes :=
  match data with
  | [] => []
  | [a] =>
      let x := byte_val a in
      [b64_char (Z.shiftr x 2); b64_char (Z.shiftl (Z.land x 3) 4);
       "="%byte; "="%byte]
  | [a; b] =>
      let x := byte_val a in
      let y := byte_val b in
      [b64_char (Z.shiftr x 2);
       b64_char (Z.lor (Z.shiftl (Z.land x 3) 4) (Z.shiftr y 4));
       b64_char (Z.shiftl (Z.land y 15) 2); "="%byte]
  | a :: b :: c :: rest =>
      let x := byte_val a in
      let y := byte_val b in
      let z := byte_val c in
      b64_char (Z.shiftr x 2)
      :: b64_char (Z.lor (Z.shiftl (Z.land x 3) 4) (Z.shiftr y 4))
      :: b64_char (Z.lor (Z.shiftl (Z.land y 15) 2) (Z.shiftr z 6))
      :: b64_char (Z.land z 63)
      :: b64encode rest
  end.

(** [base64.urlsafe_b64encode]: the standard encoding with [+] and [/]
    replaced by [-] and [_]. *)
Definition urlsafe_translate (b : byte) : byte :=
  match b with
  | "+"%byte => "-"%byte
  | "/"%byte => "_"%byte
  | _ => b
  end.

Definition urlsafe_b64encode (data : bytes) : bytes :=
  map urlsafe_translate (b64encode data).

(** The random source: the bytes that [os.urandom] will hand out, in the
    order of the requests. *)
Definition entropy : Type := nat -> byte.

(** [os.urandom(n)]. *)
Definition os_urandom (n : nat) (e : entropy) : bytes * entropy :=
  (map e (seq 0 n), fun i => e (n + i)%nat).

Inductive hash_algorithm : Type := SHA1 | SHA256 | SHA512.

(** The primitives of the [cryptography] package that the exporter calls.
    [fernet_encrypt key e t data] is [Fernet(key).encrypt(data)] when the
    random source is [e] and the time is [t]. *)
Class Cryptography : Type := {
  pbkdf2_hmac :
    hash_algorithm -> forall (length : nat) (salt : bytes) (iterations : N),
    bytes -> bytes;
  fernet_encrypt : bytes -> entropy -> Z -> bytes -> bytes * entropy
}.

Section Exporter.
Context {crypto : Cryptography}.

Definition derive_key (password : string) (salt : bytes) : bytes :=
  urlsafe_b64encode
    (pbkdf2_hmac SHA256 32 salt 390000%N (utf8_encode password)).

(** The formatted string literal of [encrypt_note]. *)
Definition note_plaintext (n : note) : string :=
  "Title: " ++ py_str (Note.title n) ++ newline
  ++ "Created: " ++ py_str (Note.date_created n) ++ newline
  ++ "Last Modified: " ++ py_str (Note.last_modified n) ++ newline ++ newline
  ++ py_str (Note.content n).

Definition encrypt_note (n : note) (password : string) (e : entropy) (t : Z)
    : bytes * entropy :=
  let (salt, e1) := os_urandom 16 e in
  let key := derive_key password salt in
  let plaintext := note_plaintext n in
  let (token, e2) := fernet_encrypt key e1 t (utf8_encode plaintext) in
  let payload := (b64encode salt ++ [x0a] ++ token)%list in
  (payload, e2).

End Exporter.

(** The plaintext block as the specification words it:
    [Title: <title>\nCreated: <date_created>\nLast Modified: <last_modified>\n\n<content>]. *)
Definition spec_plaintext_block
    (the_title created modified the_content : string) : string :=
  String.concat newline
    ["Title: " ++ the_title;
     "Created: " ++ created;
     "Last Modified: " ++ modified;
     "";
     the_content].

(* ================================================================== *)
(** * The other routes and their helpers                               *)
(* ================================================================== *)

(** [str.lower] on one character. *)
Definition lower_char (c : ascii) : ascii :=
  let n := code c in
  if ((65 <=? n) && (n <=? 90))
     || ((192 <=? n) && (n <=? 222) && negb (n =? 215))
  then ascii_of_N (Z.to_N (n + 32))
  else c.

(** [s.lower()]. *)
Fixpoint lower (s : string) : string :=
  match s with
  | EmptyString => EmptyString
  | String c s' => String (lower_char c) (lower s')
  end.

(** [needle in hay] on strings. *)
Fixpoint contains (needle hay : string) {struct hay} : bool :=
  if String.prefix needle hay then true
  else
    match hay with
    | EmptyString => false
    | String _ hay' => contains needle hay'
    end.

(** The characters of the class [a-zA-Z0-9_-]. *)
Definition safe_char (c : ascii) : bool :=
  let n := code c in
  ((97 <=? n) && (n <=? 122)) || ((65 <=? n) && (n <=? 90))
  || ((48 <=? n) && (n <=? 57)) || (n =? 95) || (n =? 45).

(** [re.sub(r"[^a-zA-Z0-9_-]+", "_", s)]: every maximal run of characters
    outside the class becomes one underscore.  [in_run] tells that the
    previous character was outside the class. *)
Fixpoint re_sub_unsafe (in_run : bool) (s : string) : string :=
  match s with
  | EmptyString => EmptyString
  | String c s' =>
      if safe_char c then String c (re_sub_unsafe false s')
      else if in_run then re_sub_unsafe true s'
      else String "_" (re_sub_unsafe true s')
  end.

Definition sanitize_filename (the_title : string) : string :=
  let safe := re_sub_unsafe false (strip the_title) in
  str_or safe "untitled".

(** What a route hands back to Flask. *)
Inductive response : Type :=
| RenderIndex (notes : list note)
| RenderEditor (n : note)
| RedirectIndex
| RedirectViewNote (note_id : string)
| Json (notes : list note)
| SendFile (payload : bytes) (download_name : string).

(** The exceptions that leave a route: those of the store, the
    [AttributeError] of a string method called on a value that is no
    string, and the [TypeError] of [jsonify] on a value it does not
    serialise. *)
Inductive web_exn : Type :=
| StoreError (e : exn)
| AttributeError
| TypeError.

Inductive outcome (A : Type) : Type :=
| Done (a : A)
| Failed (e : web_exn).
Arguments Done {A} a.
Arguments Failed {A} e.

(** The route [index()]. *)
Definition index : M response :=
  notes <- load_notes ;;
  ret (RenderIndex notes).

(** The route [view_note(note_id)]. *)
Definition view_note (note_id : string) : M response :=
  found <- find_note note_id ;;
  match found with
  | None => ret RedirectIndex
  | Some n => ret (RenderEditor n)
  end.

(** The route [delete(note_id)]. *)
Definition delete {ox : Openpyxl} (note_id : string) : M response :=
  delete_note note_id ;;
  ret RedirectIndex.

(** [v.lower()] on a field of a note. *)
Definition str_lower (v : pyval) : outcome string :=
  match v with
  | PStr s => Done (lower s)
  | _ => Failed AttributeError
  end.

(** The condition of the comprehension in [search()]:
    [query in note["title"].lower() or query in note["content"].lower()]. *)
Definition note_matches (query : string) (n : note) : outcome bool :=
  match str_lower (Note.title n) with
  | Failed e => Failed e
  | Done t =>
      if contains query t then Done true
      else
        match str_lower (Note.content n) with
        | Failed e => Failed e
        | Done c => Done (contains query c)
        end
  end.

(** The comprehension of [search()], from left to right. *)
Fixpoint search_matches (query : string) (notes : list note)
    : outcome (list note) :=
  match notes with
  | [] => Done []
  | n :: notes' =>
      match note_matches query n with
      | Failed e => Failed e
      | Done b =>
          match search_matches query notes' with
          | Failed e => Failed e
          | Done ms => Done (if b then n :: ms else ms)
          end
      end
  end.

(** Whether Flask's JSON provider serialises the value. *)
Definition json_ok (v : pyval) : bool :=
  match v with
  | POther _ _ j => j
  | _ => true
  end.

Definition note_json_ok (n : note) : bool :=
  json_ok (Note.title n) && json_ok (Note.content n)
  && json_ok (Note.date_created n) && json_ok (Note.last_modified n).

(** [jsonify(notes)]. *)
Definition jsonify (notes : list note) : outcome response :=
  if forallb note_json_ok notes then Done (Json notes) else Failed TypeError.

(** The route [search()]; [q] is the query parameter. *)
Definition search (q : option string) (db : database)
    : outcome response * database :=
  let query := lower (strip (form_get q "")) in
  match load_notes db with
  | (Raise e, db') => (Failed (StoreError e), db')
  | (Ok notes, db') =>
      if negb (str_truthy query) then (jsonify notes, db')
      else
        match search_matches query notes with
        | Done ms => (jsonify ms, db')
        | Failed e => (Failed e, db')
        end
  end.


(** The route [export(note_id)]; [form_password] is the posted field, [e]
    the random source and [t] the time. *)
Definition export {crypto : Cryptography} (note_id : string)
    (form_password : option string) (e : entropy) (t : Z) (db : database)
    : outcome response * database * entropy :=
  let password := form_get form_password "" in
  if negb (str_truthy password) then (Done (RedirectViewNote note_id), db, e)
  else
    match find_note note_id db with
    | (Raise x, db') => (Failed (StoreError x), db', e)
    | (Ok None, db') => (Done RedirectIndex, db', e)
    | (Ok (Some n), db') =>
        let (payload, e') := encrypt_note n password e t in
        match Note.title n with
        | PStr s =>
            (Done (SendFile payload
                     ("note_" ++ sanitize_filename s ++ ".secure")),
             db', e')
        | _ => (Failed AttributeError, db', e')
        end
    end.




(** PBKDF2 and Fernet replaced by functions without any secrecy, to run the
    exporter on examples: the derived bytes are [length] zero bytes and the
    token is the data itself. *)
Definition plain_primitives : Cryptography :=
  {| pbkdf2_hmac := fun _ len _ _ _ => repeat x00 len;
     fernet_encrypt := fun _ e _ data => (data, e) |}.


(* ================================================================== *)
(** * Vocabulary of the statements                                     *)
(* ================================================================== *)

(** The string under which the loops of [save_note] and [delete_note] see a
    row: [str(row[0].value)]. *)
Definition row_key (r : row) : string := py_str (ID r).

(** [listAll] as the specification words it: the rows whose ID cell is
    empty or falsy are skipped, the others are turned into records, in the
    order of the rows. *)
Definition spec_listAll (rows : sheet) : list note :=
  map note_of_row (filter (fun r => truthy (ID r)) rows).

(** The file once it exists, with the data rows of [db]. *)
Definition opened (db : database) : database :=
  Some (mkWorkbook (data_rows db)).

(** Every character of [s] passes [p]. *)
Fixpoint all_chars (p : ascii -> bool) (s : string) : bool :=
  match s with
  | EmptyString => true
  | String c s' => p c && all_chars p s'
  end.

(** A text that a cell takes as it is and that the file gives back as it
    is: at most 32767 characters, none of them a control character that the
    library refuses, none a carriage return. *)
Definition plain_char (c : ascii) : bool :=
  negb (illegal_char c) && negb (Ascii.eqb c CR).

Definition plain_text (s : string) : bool :=
  (N.of_nat (String.length s) <=? max_cell_length)%N
  && all_chars plain_char s.

(** The cell takes the text [s]: no character that the library refuses is
    among its first 32767. *)
Definition accepted (s : string) : bool :=
  negb (has_illegal_char (take_chars max_cell_length s)).


(** The cell that holds the plain text [s] in a loaded workbook: the text,
    or nothing for the empty text. *)
Definition stored_text (s : string) : pyval :=
  if str_truthy s then PStr s else PNone.

(** The cell that holds the text [s], whatever it is, once it was assigned,
    saved and loaded. *)
Definition kept_text (s : string) : pyval :=
  text_readback (take_chars max_cell_length s).


(** The row that an update leaves in the place of [r]. *)
Definition updated_row (r : row) (now new_title new_content : string) : row :=
  mkRow (ID r) (kept_text new_title) (kept_text new_content) (DateCreated r)
    (kept_text now).

(** No row of [rows] is seen under the string [s]. *)
Definition absent (s : string) (rows : sheet) : Prop :=
  forall x, In x rows -> row_key x <> s.

(** [r'] is the row that a call wrote, taking the data rows from [before] to
    [after]: it replaced a row in its place, keeping the ID cell, or it was
    appended. *)
Definition written (before after : sheet) (r' : row) : Prop :=
  (exists pre r post,
     before = (pre ++ r :: post)%list /\ after = (pre ++ r' :: post)%list
     /\ ID r' = ID r)
  \/ after = (before ++ [r'])%list.

(** The rows of [rows] that are seen under the string [s]. *)
Definition seen (s : string) (rows : sheet) : sheet :=
  filter (fun r => String.eqb (row_key r) s) rows.

(** At most one row of [rows] is seen under the string [s]. *)
Definition seen_at_most_once (s : string) (rows : sheet) : Prop :=
  (List.length (seen s rows) <= 1)%nat.

(** The last row, if there is one, has a cell. *)
Definition ends_with_cells (rows : sheet) : Prop :=
  forall pre r, rows = (pre ++ [r])%list -> blank_row r = false.

(** The rows are as a file holds them: saving them and loading the file
    gives them back.  Every store that the program has written is so. *)
Definition settled {ox : Openpyxl} (rows : sheet) : Prop :=
  reload rows = Ok rows.

(** The largest integer up to which every integer is a float. *)
Definition max_exact_id : Z := 2 ^ 53.

(** The ID that a creation would take is a number that the file holds
    exactly. *)
Definition next_id_exact (rows : sheet) : Prop :=
  forall n, get_next_id (spec_listAll rows) = Ok n -> Z.abs n <= max_exact_id.

(** The integers that [str()] renders within the cap on the digits are
    those below [int_cap] in magnitude. *)
Definition int_cap : Z := 10 ^ Z.of_N max_str_digits.

(** The store as the data model wants it, with its IDs below [bound]: every
    ID cell holds a positive integer, no two rows have the same ID, and the
    rows are as a file holds them. *)
Definition well_formed_below {ox : Openpyxl} (bound : Z) (rows : sheet)
    : Prop :=
  Forall (fun r => exists n, ID r = PInt n /\ 1 <= n < bound) rows
  /\ NoDup (map row_key rows)
  /\ settled rows.

(** The well-formed store: its IDs are integers that the file holds
    exactly. *)
Definition well_formed {ox : Openpyxl} (rows : sheet) : Prop :=
  well_formed_below (max_exact_id + 1) rows.

(** Every title and content of [notes] is a string. *)
Definition text_only (notes : list note) : Prop :=
  Forall (fun n => (exists s, Note.title n = PStr s)
                   /\ (exists s, Note.content n = PStr s)) notes.

(** [v] is no string. *)
Definition not_text (v : pyval) : Prop :=
  match v with
  | PStr _ => False
  | _ => True
  end.

(** The condition of [search()] on a note whose title and content are
    strings. *)
Definition text_matches (query : string) (n : note) : bool :=
  contains query (lower (py_str (Note.title n)))
  || contains query (lower (py_str (Note.content n))).

(** The characters of a Fernet key: the url-safe base64 alphabet and the
    padding. *)
Definition urlsafe_byte (b : byte) : bool :=
  let n := byte_val b in
  ((97 <=? n) && (n <=? 122)) || ((65 <=? n) && (n <=? 90))
  || ((48 <=? n) && (n <=? 57)) || (n =? 95) || (n =? 45) || (n =? 61).


(** The string of [n] characters [c]. *)
Definition repeat_char (c : ascii) (n : N) : string :=
  N.iter n (String c) EmptyString.

(** The examples run with the library that gives a cell of another type
    back as it was. *)
#[local] Existing Instance others_kept.

(* ================================================================== *)
(** * Facts about the Python built-ins                                 *)
(* ================================================================== *)

Local Open Scope list_scope.

(** Evaluate [digit_of] at the literal character of the goal. *)
Ltac eval_digit :=
  match goal with
  | |- context [digit_of ?c] =>
      let v := eval vm_compute in (digit_of c) in
      change (digit_of c) with v; cbv beta iota
  end.

Lemma scan_digits_uint_pos (d : Decimal.uint) (p : positive) :
  scan_digits (Zpos p) false (NilEmpty.string_of_uint d)
  = Some (Zpos (Pos.of_uint_acc d p)).
Proof.
  revert p; induction d; intro p;
    cbn [NilEmpty.string_of_uint scan_digits Pos.of_uint_acc];
    try reflexivity; eval_digit;
    rewrite <- IHd; f_equal; lia.
Qed.

Lemma scan_digits_uint_zero (d : Decimal.uint) :
  scan_digits 0 false (NilEmpty.string_of_uint d)
  = Some (Z.of_N (Pos.of_uint d)).
Proof.
  induction d; cbn [NilEmpty.string_of_uint scan_digits Pos.of_uint];
    try reflexivity; eval_digit;
    try exact IHd; apply scan_digits_uint_pos.
Qed.

Lemma parse_unsigned_uint (d : Decimal.uint) :
  d <> Decimal.Nil ->
  parse_unsigned (NilEmpty.string_of_uint d) = Some (Z.of_N (Pos.of_uint d)).
Proof.
  destruct d; intro H; try congruence;
    cbn [NilEmpty.string_of_uint parse_unsigned Pos.of_uint]; eval_digit;
    try apply scan_digits_uint_zero; apply scan_digits_uint_pos.
Qed.

Lemma parse_unsigned_pos (p : positive) :
  parse_unsigned (NilEmpty.string_of_uint (Pos.to_uint p)) = Some (Zpos p).
Proof.
  rewrite parse_unsigned_uint.
  - now rewrite DecimalPos.Unsigned.of_to.
  - apply DecimalPos.Unsigned.to_uint_nonnil.
Qed.

Lemma string_of_uint_head (d : Decimal.uint) :
  d <> Decimal.Nil ->
  exists c s, NilEmpty.string_of_uint d = String c s
              /\ digit_of c <> None.
Proof.
  destruct d; intro H; try congruence; cbn [NilEmpty.string_of_uint];
    eexists; eexists; (split; [reflexivity | discriminate]).
Qed.

(** The literal [str(z)] denotes [z]. *)
Lemma parse_int_str_of_Z (z : Z) : parse_int (str_of_Z z) = Some z.
Proof.
  destruct z as [|p|p]; [reflexivity| |].
  - pose proof (parse_unsigned_pos p) as E.
    unfold str_of_Z, parse_int.
    destruct (string_of_uint_head (Pos.to_uint p)) as (c & s & Hs & Hd).
    { apply DecimalPos.Unsigned.to_uint_nonnil. }
    rewrite Hs in *.
    assert (Hsp : int_space c = false).
    { unfold digit_of in Hd. unfold int_space.
      destruct ((48 <=? code c) && (code c <=? 57)) eqn:B; [|congruence].
      apply andb_true_iff in B. destruct B as [B1 B2].
      apply Z.leb_le in B1, B2.
      repeat (apply orb_false_iff; split);
        try (apply andb_false_iff; right; apply Z.leb_gt; lia);
        apply Z.eqb_neq; lia. }
    cbn [skip_space]. rewrite Hsp.
    assert (Hp : c <> "+"%char /\ c <> "-"%char).
    { split; intro; subst c; apply Hd; reflexivity. }
    destruct Hp as [Hp Hm].
    destruct c as [[] [] [] [] [] [] [] []]; try exact E;
      exfalso; (apply Hp; reflexivity) || (apply Hm; reflexivity).
  - unfold str_of_Z, parse_int. cbn [skip_space].
    change (int_space "-") with false. cbv iota.
    rewrite parse_unsigned_pos. reflexivity.
Qed.

Lemma py_int_parse (s : string) (z : Z) :
  py_int s = Some z -> parse_int s = Some z.
Proof.
  unfold py_int. destruct (parse_int s); [|discriminate].
  now destruct (count_digits s <=? max_str_digits)%N.
Qed.


(** ** The number of digits of [str(z)] *)

Lemma count_digits_uint (d : Decimal.uint) :
  count_digits (NilEmpty.string_of_uint d) = N.of_nat (Decimal.nb_digits d).
Proof.
  induction d; cbn [NilEmpty.string_of_uint count_digits Decimal.nb_digits];
    try reflexivity; eval_digit; rewrite IHd; lia.
Qed.

Lemma of_uint_acc_lower (d : Decimal.uint) (p : positive) :
  Zpos p * 10 ^ Z.of_nat (Decimal.nb_digits d) <= Zpos (Pos.of_uint_acc d p).
Proof.
  revert p; induction d; intro p;
    cbn [Pos.of_uint_acc Decimal.nb_digits];
    [cbn; lia | ..];
    (etransitivity; [|apply IHd]);
    rewrite Nat2Z.inj_succ, Z.pow_succ_r by lia;
    pose proof (Z.pow_pos_nonneg 10 (Z.of_nat (Decimal.nb_digits d))
                  ltac:(lia) ltac:(lia));
    nia.
Qed.

Lemma to_uint_head_nonzero (p : positive) (d : Decimal.uint) :
  Pos.to_uint p <> Decimal.D0 d.
Proof.
  intro H. destruct d as [| | | | | | | | | |] eqn:Ed;
    try (pose proof (DecimalPos.Unsigned.of_to p) as E;
         pose proof (DecimalPos.Unsigned.to_of (Pos.to_uint p)) as T;
         rewrite E in T; cbn [N.to_uint] in T; rewrite H in T;
         rewrite DecimalFacts.unorm_D0 in T;
         match type of T with
         | _ = Decimal.unorm ?u =>
             pose proof (DecimalFacts.nb_digits_unorm u ltac:(discriminate)) as L
         end;
         rewrite <- T in L; cbn [Decimal.nb_digits] in L; lia).
  now apply (DecimalPos.Unsigned.to_uint_nonzero p).
Qed.

Lemma pos_digits_lower (p : positive) :
  10 ^ (Z.of_nat (Decimal.nb_digits (Pos.to_uint p)) - 1) <= Zpos p.
Proof.
  pose proof (DecimalPos.Unsigned.of_to p) as E.
  pose proof (to_uint_head_nonzero p) as Hz.
  pose proof (DecimalPos.Unsigned.to_uint_nonnil p) as Hn.
  destruct (Pos.to_uint p) as [|d|d|d|d|d|d|d|d|d|d];
    [congruence | exfalso; now apply (Hz d) | ..];
    cbn [Pos.of_uint] in E; injection E as E; rewrite <- E;
    cbn [Decimal.nb_digits];
    replace (Z.of_nat (S (Decimal.nb_digits d)) - 1)
      with (Z.of_nat (Decimal.nb_digits d)) by lia;
    (etransitivity; [|apply of_uint_acc_lower]);
    pose proof (Z.pow_pos_nonneg 10 (Z.of_nat (Decimal.nb_digits d))
                  ltac:(lia) ltac:(lia));
    nia.
Qed.

Lemma count_digits_pos (p : positive) :
  Zpos p < int_cap ->
  (count_digits (NilEmpty.string_of_uint (Pos.to_uint p)) <=? max_str_digits)%N
  = true.
Proof.
  unfold int_cap. intro H. rewrite count_digits_uint. apply N.leb_le.
  pose proof (pos_digits_lower p) as L.
  remember (Z.of_nat (Decimal.nb_digits (Pos.to_uint p))) as n eqn:En.
  assert (G : n - 1 < Z.of_N max_str_digits).
  { destruct (Z_lt_le_dec (n - 1) (Z.of_N max_str_digits)) as [G|G];
      [exact G|].
    exfalso. apply (Z.pow_le_mono_r 10) in G; [|lia].
    remember (10 ^ Z.of_N max_str_digits) as cap. lia. }
  remember max_str_digits as m. lia.
Qed.

(** [int(str(z)) == z] for an integer below the cap on the digits. *)
Lemma py_int_str_of_Z (z : Z) :
  Z.abs z < int_cap -> py_int (str_of_Z z) = Some z.
Proof.
  intro H. unfold py_int. rewrite parse_int_str_of_Z.
  destruct z as [|p|p]; [reflexivity | |].
  - cbn [str_of_Z]. rewrite count_digits_pos; [reflexivity | exact H].
  - cbn [str_of_Z count_digits]. change (digit_of "-") with (@None Z).
    cbv iota. rewrite count_digits_pos; [reflexivity | exact H].
Qed.

Lemma max_exact_id_below_cap : max_exact_id + 1 < int_cap.
Proof. apply Z.ltb_lt. vm_compute. reflexivity. Qed.

Lemma py_int_str_of_small (z : Z) :
  Z.abs z <= max_exact_id + 1 -> py_int (str_of_Z z) = Some z.
Proof.
  intro H. apply py_int_str_of_Z. pose proof max_exact_id_below_cap. lia.
Qed.

(* ================================================================== *)
(** * Facts about the cells of a workbook                              *)
(* ================================================================== *)

Lemma take_chars_short (n : N) (s : string) :
  (N.of_nat (String.length s) <= n)%N -> take_chars n s = s.
Proof.
  revert n; induction s as [|c s IH]; intros n H; [reflexivity|].
  cbn [take_chars]. cbn [String.length] in H.
  destruct (N.eqb_spec n 0) as [E|E]; [lia|].
  rewrite IH by lia. reflexivity.
Qed.

Lemma plain_no_illegal (s : string) :
  all_chars plain_char s = true -> has_illegal_char s = false.
Proof.
  induction s as [|c s IH]; [reflexivity|]. cbn. intro H.
  apply andb_true_iff in H. destruct H as [Hc Hs]. unfold plain_char in Hc.
  apply andb_true_iff in Hc. destruct Hc as [Hc _].
  apply negb_true_iff in Hc. now rewrite Hc, IH.
Qed.

Lemma plain_normalized (s : string) :
  all_chars plain_char s = true -> normalize_newlines s = s.
Proof.
  induction s as [|c s IH]; [reflexivity|]. cbn [all_chars normalize_newlines].
  intro H. apply andb_true_iff in H. destruct H as [Hc Hs].
  unfold plain_char in Hc. apply andb_true_iff in Hc. destruct Hc as [_ Hc].
  apply negb_true_iff in Hc. rewrite Hc, IH by exact Hs. reflexivity.
Qed.

Lemma plain_text_parts (s : string) :
  plain_text s = true ->
  (N.of_nat (String.length s) <= max_cell_length)%N
  /\ all_chars plain_char s = true.
Proof.
  unfold plain_text. intro H. apply andb_true_iff in H.
  destruct H as [H1 H2]. apply N.leb_le in H1. now split.
Qed.

Lemma check_string_accepted (s : string) :
  check_string s
  = if accepted s then Ok (take_chars max_cell_length s)
    else Raise IllegalCharacterError.
Proof.
  unfold check_string, accepted.
  now destruct (has_illegal_char (take_chars max_cell_length s)).
Qed.

Lemma plain_text_accepted (s : string) :
  plain_text s = true -> accepted s = true.
Proof.
  intro H. apply plain_text_parts in H. destruct H as [H1 H2].
  unfold accepted. rewrite take_chars_short by exact H1.
  now rewrite plain_no_illegal.
Qed.

(** A plain text passes [check_string] as it is. *)
Lemma check_string_plain (s : string) :
  plain_text s = true -> check_string s = Ok s.
Proof.
  intro H. rewrite check_string_accepted, plain_text_accepted by exact H.
  apply plain_text_parts in H. now rewrite take_chars_short.
Qed.

Lemma text_readback_plain (s : string) :
  all_chars plain_char s = true -> text_readback s = stored_text s.
Proof.
  intro H. unfold text_readback, stored_text.
  rewrite plain_normalized by exact H. now destruct s.
Qed.

(** The file gives a plain text back as it is. *)
Lemma kept_text_plain (s : string) :
  plain_text s = true -> kept_text s = stored_text s.
Proof.
  intro H. apply plain_text_parts in H. destruct H as [H1 H2].
  unfold kept_text. rewrite take_chars_short by exact H1.
  now apply text_readback_plain.
Qed.

Lemma py_or_text (s : string) : py_or (PStr s) (PStr "") = PStr s.
Proof. destruct s; reflexivity. Qed.







Lemma assigned_text_readback {ox : Openpyxl} (s : string) :
  cell_readback (PStr (take_chars max_cell_length s)) = Ok (kept_text s).
Proof. reflexivity. Qed.



Lemma number_readback_raise (n : Z) (e : exn) :
  number_readback n = Raise e -> e = OverflowError.
Proof.
  unfold number_readback. destruct (to_double (Z.abs n)) as [x|];
    [|congruence].
  destruct (x <? 10 ^ 16); [discriminate|].
  destruct (to_double (round16 x)); discriminate.
Qed.

Lemma cell_readback_raise {ox : Openpyxl} (v : pyval) (e : exn) :
  cell_readback v = Raise e -> e = OverflowError.
Proof.
  destruct v; cbn; try discriminate. apply number_readback_raise.
Qed.

Lemma row_readback_raise {ox : Openpyxl} (r : row) (e : exn) :
  row_readback r = Raise e -> e = OverflowError.
Proof.
  unfold row_readback, and_then.
  destruct (cell_readback (ID r)) eqn:E1;
    [|intro H; injection H as <-; exact (cell_readback_raise _ _ E1)].
  destruct (cell_readback (Title r)) eqn:E2;
    [|intro H; injection H as <-; exact (cell_readback_raise _ _ E2)].
  destruct (cell_readback (Content r)) eqn:E3;
    [|intro H; injection H as <-; exact (cell_readback_raise _ _ E3)].
  destruct (cell_readback (DateCreated r)) eqn:E4;
    [|intro H; injection H as <-; exact (cell_readback_raise _ _ E4)].
  destruct (cell_readback (LastModified r)) eqn:E5;
    [discriminate
    |intro H; injection H as <-; exact (cell_readback_raise _ _ E5)].
Qed.

Lemma row_readback_cells {ox : Openpyxl} (r : row) :
  row_readback r = Ok r
  <-> cell_readback (ID r) = Ok (ID r)
      /\ cell_readback (Title r) = Ok (Title r)
      /\ cell_readback (Content r) = Ok (Content r)
      /\ cell_readback (DateCreated r) = Ok (DateCreated r)
      /\ cell_readback (LastModified r) = Ok (LastModified r).
Proof.
  destruct r as [i t c d m]. unfold row_readback, and_then. cbn [ID Title Content DateCreated LastModified].
  split.
  - destruct (cell_readback i); [|discriminate].
    destruct (cell_readback t); [|discriminate].
    destruct (cell_readback c); [|discriminate].
    destruct (cell_readback d); [|discriminate].
    destruct (cell_readback m); [|discriminate].
    intro H. injection H as -> -> -> -> ->. repeat split.
  - intros (-> & -> & -> & -> & ->). reflexivity.
Qed.

(** ** [map_result] *)

Lemma map_result_fixed {A : Type} (f : A -> result A) (l : list A) :
  map_result f l = Ok l <-> Forall (fun a => f a = Ok a) l.
Proof.
  induction l as [|a l IH]; cbn [map_result].
  - split; [constructor | reflexivity].
  - unfold and_then. split.
    + destruct (f a) as [b|] eqn:Ea; [|discriminate].
      destruct (map_result f l) as [bs|] eqn:El; [|discriminate].
      intro H. injection H as H1 H2. subst b bs.
      constructor; [exact Ea | now apply IH].
    + intro H. inversion H as [|? ? Ha Hl]; subst. rewrite Ha.
      apply IH in Hl. now rewrite Hl.
Qed.

Lemma map_result_length {A B : Type} (f : A -> result B) (l : list A)
    (l' : list B) :
  map_result f l = Ok l' -> List.length l' = List.length l.
Proof.
  revert l'; induction l as [|a l IH]; intros l'; cbn [map_result].
  - intro H. now injection H as <-.
  - unfold and_then. destruct (f a); [|discriminate].
    destruct (map_result f l) as [bs|]; [|discriminate].
    intro H. injection H as <-. cbn. f_equal. now apply IH.
Qed.

Lemma map_result_app {A B : Type} (f : A -> result B) (l1 l2 : list A)
    (r1 r2 : list B) :
  map_result f l1 = Ok r1 -> map_result f l2 = Ok r2 ->
  map_result f (l1 ++ l2) = Ok (r1 ++ r2).
Proof.
  revert r1; induction l1 as [|a l1 IH]; intros r1; cbn [map_result app].
  - intros H1 H2. now injection H1 as <-.
  - unfold and_then. destruct (f a); [|discriminate].
    destruct (map_result f l1) as [bs|]; [|discriminate].
    intros H1 H2. injection H1 as <-. now rewrite (IH bs eq_refl H2).
Qed.

Lemma map_result_raise {A B : Type} (f : A -> result B) (l : list A)
    (e e0 : exn) :
  (forall a e', f a = Raise e' -> e' = e0) ->
  map_result f l = Raise e -> e = e0.
Proof.
  intro Hf. induction l as [|a l IH]; cbn [map_result]; [discriminate|].
  unfold and_then. destruct (f a) eqn:E.
  - destruct (map_result f l); [discriminate|].
    intro H. injection H as <-. now apply IH.
  - intro H. injection H as <-. now apply (Hf a).
Qed.

(** ** The rows that a file holds *)

Lemma drop_trailing_blank_cons (r : row) (rows : sheet) :
  drop_trailing_blank (r :: rows)
  = match drop_trailing_blank rows with
    | [] => if blank_row r then [] else [r]
    | x :: rest => r :: x :: rest
    end.
Proof. reflexivity. Qed.

(** What [drop_trailing_blank] drops are blank rows at the end. *)
Lemma drop_trailing_blank_spec (rows : sheet) :
  exists tail,
    rows = drop_trailing_blank rows ++ tail
    /\ Forall (fun r => blank_row r = true) tail.
Proof.
  induction rows as [|r rows (tail & E & Hb)].
  - exists []. split; [reflexivity | constructor].
  - rewrite drop_trailing_blank_cons.
    destruct (drop_trailing_blank rows) as [|x rest].
    + destruct (blank_row r) eqn:B.
      * exists (r :: tail). cbn in *. split; [now rewrite <- E|].
        now constructor.
      * exists tail. cbn in *. split; [now rewrite <- E | exact Hb].
    + exists tail. split; [|exact Hb]. cbn. now rewrite E at 1.
Qed.

Lemma ends_with_cells_snoc (rows : sheet) (r : row) :
  ends_with_cells (rows ++ [r]) <-> blank_row r = false.
Proof.
  split.
  - intro H. now apply (H rows r).
  - intros H pre x E. apply app_inj_tail in E. destruct E as [_ <-]. exact H.
Qed.

Lemma ends_with_cells_nil : ends_with_cells [].
Proof. intros pre r E. now destruct pre. Qed.

(** The last row stays when rows above it are replaced. *)
Lemma ends_with_cells_tail (a c b : sheet) :
  b <> [] -> ends_with_cells (a ++ b) -> ends_with_cells (c ++ b).
Proof.
  intros Hb H pre r E.
  destruct (exists_last Hb) as (b0 & y & ->).
  rewrite app_assoc in E. apply app_inj_tail in E. destruct E as [_ <-].
  apply (H (a ++ b0) y). now rewrite app_assoc.
Qed.

Lemma ends_with_cells_replace (pre : sheet) (r r' : row) (post : sheet) :
  blank_row r' = false ->
  ends_with_cells (pre ++ r :: post) -> ends_with_cells (pre ++ r' :: post).
Proof.
  intros Hb H. destruct post as [|y post].
  - now apply ends_with_cells_snoc.
  - change (pre ++ r' :: y :: post) with (pre ++ [r'] ++ y :: post).
    rewrite app_assoc.
    apply (ends_with_cells_tail (pre ++ [r])); [discriminate|].
    now rewrite <- app_assoc.
Qed.

Lemma drop_trailing_blank_fixed (rows : sheet) :
  drop_trailing_blank rows = rows <-> ends_with_cells rows.
Proof.
  split.
  - induction rows as [|r rows IH]; intro H; [apply ends_with_cells_nil|].
    rewrite drop_trailing_blank_cons in H.
    destruct (drop_trailing_blank rows) as [|x rest] eqn:E.
    + destruct (blank_row r) eqn:B; [discriminate|].
      injection H as <-. now apply (ends_with_cells_snoc []).
    + injection H as H. specialize (IH H). rewrite <- H.
      change (r :: x :: rest) with ([r] ++ x :: rest).
      apply (ends_with_cells_tail []); [discriminate|]. now rewrite H.
  - induction rows as [|r rows IH]; intro H; [reflexivity|].
    rewrite drop_trailing_blank_cons. destruct rows as [|x rows].
    + cbn. now rewrite (H [] r eq_refl).
    + rewrite IH; [reflexivity|].
      exact (ends_with_cells_tail [r] [] (x :: rows) ltac:(discriminate) H).
Qed.

Lemma blank_row_not_listed (r : row) :
  blank_row r = true -> truthy (ID r) = false.
Proof.
  unfold blank_row. destruct (ID r); cbn; try discriminate. reflexivity.
Qed.

Lemma blank_row_key (r : row) :
  blank_row r = true -> row_key r = "None"%string.
Proof.
  unfold blank_row, row_key. destruct (ID r); cbn; try discriminate.
  reflexivity.
Qed.

Lemma drop_trailing_blank_incl (rows : sheet) (x : row) :
  In x (drop_trailing_blank rows) -> In x rows.
Proof.
  destruct (drop_trailing_blank_spec rows) as (tail & E & _).
  intro H. rewrite E. apply in_or_app. now left.
Qed.

(** The records listed are those of the rows up to the last with a cell. *)
Lemma spec_listAll_drop_trailing_blank (rows : sheet) :
  spec_listAll (drop_trailing_blank rows) = spec_listAll rows.
Proof.
  destruct (drop_trailing_blank_spec rows) as (tail & E & Hb).
  rewrite E at 2. unfold spec_listAll. rewrite filter_app, map_app.
  assert (T : filter (fun r => truthy (ID r)) tail = []).
  { clear E. induction tail as [|x tail IH]; [reflexivity|].
    inversion Hb as [|? ? Hx Ht]; subst. cbn.
    now rewrite (blank_row_not_listed _ Hx), IH. }
  rewrite T. cbn. now rewrite app_nil_r.
Qed.

Lemma settled_iff {ox : Openpyxl} (rows : sheet) :
  settled rows
  <-> Forall (fun r => row_readback r = Ok r) rows /\ ends_with_cells rows.
Proof.
  unfold settled, reload. split.
  - intro H. pose proof (map_result_length _ _ _ H) as L.
    destruct (drop_trailing_blank_spec rows) as (tail & E & _).
    assert (T : tail = []).
    { apply (f_equal (@List.length row)) in E. rewrite length_app in E.
      destruct tail; [reflexivity | cbn in E; lia]. }
    subst tail. rewrite app_nil_r in E. rewrite <- E in H.
    split; [now apply map_result_fixed|].
    now apply drop_trailing_blank_fixed.
  - intros [Hf He]. apply drop_trailing_blank_fixed in He. rewrite He.
    now apply map_result_fixed.
Qed.

Lemma settled_nil {ox : Openpyxl} : settled [].
Proof. reflexivity. Qed.

Lemma Forall_drop_trailing_blank (P : row -> Prop) (rows : sheet) :
  Forall P rows -> Forall P (drop_trailing_blank rows).
Proof.
  intro H. apply Forall_forall. intros x Hx. rewrite Forall_forall in H.
  apply H. now apply drop_trailing_blank_incl.
Qed.

(** Rows that each come back as they are come back without the blank rows
    at the end. *)
Lemma reload_fixed_rows {ox : Openpyxl} (rows : sheet) :
  Forall (fun r => row_readback r = Ok r) rows ->
  reload rows = Ok (drop_trailing_blank rows).
Proof.
  intro H. unfold reload. apply map_result_fixed.
  now apply Forall_drop_trailing_blank.
Qed.

Lemma drop_trailing_blank_idem (rows : sheet) :
  drop_trailing_blank (drop_trailing_blank rows) = drop_trailing_blank rows.
Proof.
  induction rows as [|r rows IH]; [reflexivity|].
  rewrite drop_trailing_blank_cons.
  destruct (drop_trailing_blank rows) as [|x rest] eqn:E.
  - destruct (blank_row r) eqn:B; [reflexivity|]. cbn. now rewrite B.
  - rewrite drop_trailing_blank_cons, IH. reflexivity.
Qed.

Lemma settled_drop_trailing_blank {ox : Openpyxl} (rows : sheet) :
  Forall (fun r => row_readback r = Ok r) rows ->
  settled (drop_trailing_blank rows).
Proof.
  intro H. apply settled_iff. split.
  - now apply Forall_drop_trailing_blank.
  - apply drop_trailing_blank_fixed, drop_trailing_blank_idem.
Qed.

Lemma reload_raise {ox : Openpyxl} (rows : sheet) (e : exn) :
  reload rows = Raise e -> e = OverflowError.
Proof.
  unfold reload. apply map_result_raise. intros a e'. apply row_readback_raise.
Qed.

(* ================================================================== *)
(** * Facts about the store                                            *)
(* ================================================================== *)

Lemma opened_some (wb : workbook) : opened (Some wb) = Some wb.
Proof. destruct wb; reflexivity. Qed.


Lemma ensure_database_run (db : database) :
  ensure_database db = (Ok tt, opened db).
Proof. destruct db as [[sh]|]; reflexivity. Qed.

Lemma load_workbook_opened (db : database) :
  load_workbook (opened db) = (Ok (mkWorkbook (data_rows db)), opened db).
Proof. reflexivity. Qed.

Lemma load_notes_loop_spec (rows : sheet) (acc : list note) :
  load_notes_loop rows acc = (acc ++ spec_listAll rows)%list.
Proof.
  revert acc; induction rows as [|r rows IH]; intro acc; cbn.
  - now rewrite List.app_nil_r.
  - unfold spec_listAll in *. cbn. destruct (truthy (ID r)); cbn.
    + rewrite IH, <- List.app_assoc. reflexivity.
    + apply IH.
Qed.

Lemma load_notes_run (db : database) :
  load_notes db = (Ok (spec_listAll (data_rows db)), opened db).
Proof.
  unfold load_notes, bind. rewrite ensure_database_run, load_workbook_opened.
  unfold ret, get_sheet. cbn [active]. now rewrite load_notes_loop_spec.
Qed.

Lemma find_note_run (s : string) (db : database) :
  find_note s db = (Ok (find_in s (spec_listAll (data_rows db))), opened db).
Proof. unfold find_note, bind. now rewrite load_notes_run. Qed.

(** What a call that saves [sh] leaves, whatever it returns. *)
Lemma workbook_save_run {ox : Openpyxl} {A : Type} (sh : sheet) (a : A)
    (db : database) :
  (workbook_save (mkWorkbook sh) ;; ret a) db
  = match reload sh with
    | Ok rows => (Ok a, Some (mkWorkbook rows))
    | Raise e => (Raise e, db)
    end.
Proof.
  unfold bind, workbook_save, ret. cbn [active].
  now destruct (reload sh).
Qed.

Lemma delete_note_run {ox : Openpyxl} (s : string) (db : database) :
  delete_note s db
  = match reload (delete_row s (data_rows db)) with
    | Ok rows => (Ok tt, Some (mkWorkbook rows))
    | Raise e => (Raise e, opened db)
    end.
Proof.
  unfold delete_note, bind. rewrite ensure_database_run, load_workbook_opened.
  unfold workbook_save, get_sheet. cbn [active]. reflexivity.
Qed.

Lemma append_note_run {ox : Openpyxl} (now t c : string) (sh : sheet)
    (db : database) :
  append_note now t c sh db
  = match get_next_id (spec_listAll (data_rows db)) with
    | Ok n =>
        match sheet_append sh n t c now now with
        | Ok sh' =>
            match reload sh' with
            | Ok rows => (Ok (str_of_Z n), Some (mkWorkbook rows))
            | Raise e => (Raise e, opened db)
            end
        | Raise e => (Raise e, opened db)
        end
    | Raise e => (Raise e, opened db)
    end.
Proof.
  unfold append_note. unfold bind at 1. rewrite load_notes_run.
  unfold bind at 1. unfold lift at 1.
  destruct (get_next_id _) as [n|e]; [|reflexivity].
  unfold bind at 1. unfold lift at 1.
  destruct (sheet_append _ _ _ _ _ _) as [sh'|e]; [|reflexivity].
  rewrite workbook_save_run. reflexivity.
Qed.

Lemma save_note_run {ox : Openpyxl} (now : string) (nid : option string)
    (t c : string) (db : database) :
  save_note now nid t c db
  = match id_given nid with
    | Some s =>
        match update_row s t c now (data_rows db) with
        | Ok (Some sh') =>
            match reload sh' with
            | Ok rows => (Ok s, Some (mkWorkbook rows))
            | Raise e => (Raise e, opened db)
            end
        | Ok None => append_note now t c (data_rows db) (opened db)
        | Raise e => (Raise e, opened db)
        end
    | None => append_note now t c (data_rows db) (opened db)
    end.
Proof.
  unfold save_note. unfold bind at 1. rewrite ensure_database_run.
  unfold bind at 1. rewrite load_workbook_opened.
  unfold get_sheet. cbn [active].
  destruct (id_given nid) as [s|]; [|reflexivity].
  unfold bind at 1. unfold lift at 1.
  destruct (update_row _ _ _ _ _) as [[sh'|]|e]; try reflexivity.
  rewrite workbook_save_run. reflexivity.
Qed.

(** ** The assignments *)

(** The row in memory after the three assignments of an update. *)
Lemma set_values_run (r : row) (t c now : string) :
  set_values r t c now
  = if accepted t && accepted c && accepted now
    then Ok (mkRow (ID r) (PStr (take_chars max_cell_length t))
               (PStr (take_chars max_cell_length c)) (DateCreated r)
               (PStr (take_chars max_cell_length now)))
    else Raise IllegalCharacterError.
Proof.
  unfold set_values, and_then. rewrite !check_string_accepted.
  destruct (accepted t); [|reflexivity].
  destruct (accepted c); [|reflexivity].
  destruct (accepted now); reflexivity.
Qed.

Lemma sheet_append_run (sh : sheet) (n : Z) (t c now : string) :
  sheet_append sh n t c now now
  = if accepted t && accepted c && accepted now
    then Ok (sh ++ [mkRow (PInt n) (PStr (take_chars max_cell_length t))
                      (PStr (take_chars max_cell_length c))
                      (PStr (take_chars max_cell_length now))
                      (PStr (take_chars max_cell_length now))])
    else Raise IllegalCharacterError.
Proof.
  unfold sheet_append, and_then. rewrite !check_string_accepted.
  destruct (accepted t); [|reflexivity].
  destruct (accepted c); [|reflexivity].
  destruct (accepted now); reflexivity.
Qed.

Lemma plain_accepted_all (t c now : string) :
  plain_text t = true -> plain_text c = true -> plain_text now = true ->
  accepted t && accepted c && accepted now = true.
Proof.
  intros Ht Hc Hn. now rewrite !plain_text_accepted.
Qed.

Lemma updated_row_readback {ox : Openpyxl} (r : row) (t c now : string) :
  row_readback r = Ok r ->
  row_readback
    (mkRow (ID r) (PStr (take_chars max_cell_length t))
       (PStr (take_chars max_cell_length c)) (DateCreated r)
       (PStr (take_chars max_cell_length now)))
  = Ok (updated_row r now t c).
Proof.
  intro H. apply row_readback_cells in H. destruct H as (Hi & _ & _ & Hd & _).
  unfold row_readback, and_then. cbn [ID Title Content DateCreated LastModified].
  rewrite Hi, Hd. reflexivity.
Qed.




Lemma Forall_app_middle {A : Type} (P : A -> Prop) (pre : list A) (r : A)
    (post : list A) :
  Forall P (pre ++ r :: post) <-> Forall P pre /\ P r /\ Forall P post.
Proof.
  rewrite Forall_app. split.
  - intros [H1 H2]. inversion H2; subst. auto.
  - intros (H1 & H2 & H3). split; [exact H1 | now constructor].
Qed.

(** Saving after an update of a settled sheet: the row written comes back
    with its texts as the file keeps them, the other rows as they were. *)
Lemma reload_update {ox : Openpyxl} (pre : sheet) (r : row) (post : sheet)
    (t c now : string) :
  settled (pre ++ r :: post) ->
  reload (pre ++ mkRow (ID r) (PStr (take_chars max_cell_length t))
                   (PStr (take_chars max_cell_length c)) (DateCreated r)
                   (PStr (take_chars max_cell_length now)) :: post)
  = Ok (pre ++ updated_row r now t c :: post).
Proof.
  intro H. apply settled_iff in H. destruct H as [Hf He].
  apply Forall_app_middle in Hf. destruct Hf as (Hpre & Hr & Hpost).
  unfold reload.
  assert (D : drop_trailing_blank
                (pre ++ mkRow (ID r) (PStr (take_chars max_cell_length t))
                   (PStr (take_chars max_cell_length c)) (DateCreated r)
                   (PStr (take_chars max_cell_length now)) :: post)
              = pre ++ mkRow (ID r) (PStr (take_chars max_cell_length t))
                   (PStr (take_chars max_cell_length c)) (DateCreated r)
                   (PStr (take_chars max_cell_length now)) :: post).
  { apply drop_trailing_blank_fixed.
    apply (ends_with_cells_replace pre r); [|exact He].
    unfold blank_row. cbn. now rewrite andb_false_r. }
  rewrite D. apply map_result_app; [now apply map_result_fixed|].
  cbn [map_result]. rewrite (updated_row_readback _ _ _ _ Hr).
  apply map_result_fixed in Hpost. unfold and_then. now rewrite Hpost.
Qed.




Lemma delete_row_incl (s : string) (rows : sheet) (x : row) :
  In x (delete_row s rows) -> In x rows.
Proof.
  induction rows as [|r rows IH]; [intros []|]. cbn.
  destruct (String.eqb (py_str (ID r)) s); [now right|].
  intros [<-|H]; [now left | right; now apply IH].
Qed.

Lemma reload_delete {ox : Openpyxl} (s : string) (rows : sheet) :
  settled rows ->
  reload (delete_row s rows) = Ok (drop_trailing_blank (delete_row s rows)).
Proof.
  intro H. apply settled_iff in H. destruct H as [Hf _].
  apply reload_fixed_rows. apply Forall_forall. intros x Hx.
  rewrite Forall_forall in Hf. apply Hf. now apply (delete_row_incl s).
Qed.

Lemma settled_delete {ox : Openpyxl} (s : string) (rows : sheet) :
  settled rows -> settled (drop_trailing_blank (delete_row s rows)).
Proof.
  intro H. apply settled_iff in H. destruct H as [Hf _].
  apply settled_drop_trailing_blank. apply Forall_forall. intros x Hx.
  rewrite Forall_forall in Hf. apply Hf. now apply (delete_row_incl s).
Qed.

(** On a settled store [delete_note] returns, and leaves the rows without
    the first one seen under the id, up to the last row with a cell. *)
Lemma delete_note_settled {ox : Openpyxl} (s : string) (db : database) :
  settled (data_rows db) ->
  delete_note s db
  = (Ok tt,
     Some (mkWorkbook (drop_trailing_blank (delete_row s (data_rows db))))).
Proof.
  intro H. rewrite delete_note_run. now rewrite (reload_delete _ _ H).
Qed.

(** ** The loops *)

Lemma update_row_absent (s t c now : string) (rows : sheet) :
  absent s rows -> update_row s t c now rows = Ok None.
Proof.
  induction rows as [|r rows IH]; intro H; cbn; [reflexivity|].
  destruct (String.eqb_spec (py_str (ID r)) s) as [E|E].
  - exfalso. apply (H r); [now left | exact E].
  - rewrite IH; [reflexivity|]. intros x Hx. apply H. now right.
Qed.

Lemma update_row_first (s t c now : string) (pre : sheet) (r : row)
    (post : sheet) :
  absent s pre -> row_key r = s ->
  update_row s t c now (pre ++ r :: post)
  = (r' <~ set_values r t c now ;; Ok (Some (pre ++ r' :: post)%list)).
Proof.
  intros Hpre Hr. induction pre as [|x pre IH]; cbn [app update_row].
  - unfold row_key in Hr. rewrite Hr, String.eqb_refl. reflexivity.
  - destruct (String.eqb_spec (py_str (ID x)) s) as [E|E].
    + exfalso. apply (Hpre x); [now left | exact E].
    + rewrite IH by (intros y Hy; apply Hpre; now right).
      unfold and_then. now destruct (set_values r t c now).
Qed.


Lemma delete_row_absent (s : string) (rows : sheet) :
  absent s rows -> delete_row s rows = rows.
Proof.
  induction rows as [|r rows IH]; intro H; cbn; [reflexivity|].
  destruct (String.eqb_spec (py_str (ID r)) s) as [E|E].
  - exfalso. apply (H r); [now left | exact E].
  - rewrite IH; [reflexivity|]. intros x Hx. apply H. now right.
Qed.

Lemma delete_row_first (s : string) (pre : sheet) (r : row) (post : sheet) :
  absent s pre -> row_key r = s ->
  delete_row s (pre ++ r :: post) = pre ++ post.
Proof.
  intros Hpre Hr. induction pre as [|x pre IH]; cbn.
  - unfold row_key in Hr. now rewrite Hr, String.eqb_refl.
  - destruct (String.eqb_spec (py_str (ID x)) s) as [E|E].
    + exfalso. apply (Hpre x); [now left | exact E].
    + rewrite IH; [reflexivity|]. intros y Hy. apply Hpre. now right.
Qed.

Lemma find_in_absent (s : string) (rows : sheet) :
  absent s rows -> find_in s (spec_listAll rows) = None.
Proof.
  unfold spec_listAll.
  induction rows as [|r rows IH]; intro H; cbn; [reflexivity|].
  assert (IH' : find_in s (map note_of_row
                  (filter (fun r => truthy (ID r)) rows)) = None).
  { apply IH. intros x Hx. apply H. now right. }
  destruct (truthy (ID r)); cbn; [|exact IH'].
  destruct (String.eqb_spec (py_str (ID r)) s) as [E|E]; [|exact IH'].
  exfalso. apply (H r); [now left | exact E].
Qed.

Lemma spec_listAll_app (a b : sheet) :
  spec_listAll (a ++ b) = spec_listAll a ++ spec_listAll b.
Proof. unfold spec_listAll. now rewrite filter_app, map_app. Qed.

Lemma spec_listAll_cons (r : row) (rows : sheet) :
  spec_listAll (r :: rows)
  = if truthy (ID r) then note_of_row r :: spec_listAll rows
    else spec_listAll rows.
Proof. unfold spec_listAll. cbn. now destruct (truthy (ID r)). Qed.


Lemma absent_drop_trailing_blank (s : string) (rows : sheet) :
  absent s rows -> absent s (drop_trailing_blank rows).
Proof.
  intros H x Hx. apply H. now apply drop_trailing_blank_incl.
Qed.

(** ** [get_next_id] *)

Lemma note_ints_raise (notes : list note) (e : exn) :
  note_ints notes = Raise e -> e = ValueError.
Proof.
  induction notes as [|n notes IH]; cbn; [discriminate|].
  destruct (py_int (Note.id n)); [|congruence].
  destruct (note_ints notes); [discriminate|].
  intro H. injection H as <-. now apply IH.
Qed.

Lemma note_ints_ok_iff (notes : list note) :
  (exists zs, note_ints notes = Ok zs)
  <-> Forall (fun n => py_int (Note.id n) <> None) notes.
Proof.
  induction notes as [|n notes IH]; cbn.
  - split; [constructor | now exists []].
  - split.
    + intros [zs H]. destruct (py_int (Note.id n)) eqn:E; [|discriminate].
      destruct (note_ints notes) eqn:E'; [|discriminate].
      constructor; [congruence|]. apply IH. now eexists.
    + intro H. inversion H as [|? ? Hn Hrest]; subst.
      destruct (py_int (Note.id n)); [|congruence].
      apply IH in Hrest. destruct Hrest as [zs ->]. now eexists.
Qed.

Lemma note_ints_in (notes : list note) (zs : list Z) (x : note) :
  note_ints notes = Ok zs -> In x notes ->
  exists z, In z zs /\ py_int (Note.id x) = Some z.
Proof.
  revert zs; induction notes as [|n notes IH]; intros zs H Hx; [destruct Hx|].
  cbn in H. destruct (py_int (Note.id n)) eqn:E; [|discriminate].
  destruct (note_ints notes) as [zs'|] eqn:E'; [|discriminate].
  injection H as <-. destruct Hx as [<-|Hx].
  - exists z. split; [now left | exact E].
  - destruct (IH zs' eq_refl Hx) as (z' & Hz' & Hp).
    exists z'. split; [now right | exact Hp].
Qed.


Lemma py_max_ge_init (z : Z) (zs : list Z) : z <= py_max z zs.
Proof.
  unfold py_max. revert z; induction zs as [|y zs IH]; intro z; cbn; [lia|].
  specialize (IH (Z.max z y)). lia.
Qed.

Lemma py_max_upper (z : Z) (zs : list Z) (x : Z) :
  In x (z :: zs) -> x <= py_max z zs.
Proof.
  unfold py_max. revert z; induction zs as [|y zs IH]; intros z [->|H].
  - cbn; lia.
  - destruct H.
  - apply (py_max_ge_init x (y :: zs)).
  - cbn. destruct H as [->|H]; [|apply IH; now right].
    pose proof (py_max_ge_init (Z.max z x) zs) as G. unfold py_max in G. lia.
Qed.

Lemma py_max_in (z : Z) (zs : list Z) : In (py_max z zs) (z :: zs).
Proof.
  unfold py_max. revert z; induction zs as [|y zs IH]; intro z; cbn.
  - now left.
  - destruct (IH (Z.max z y)) as [H|H].
    + rewrite <- H. destruct (Z.max_spec z y) as [[_ ->]|[_ ->]]; auto.
    + right. now right.
Qed.


Lemma get_next_id_nonempty (notes : list note) (z : Z) (zs : list Z) :
  note_ints notes = Ok (z :: zs) -> get_next_id notes = Ok (py_max z zs + 1).
Proof.
  intro H. destruct notes as [|n notes]; [discriminate|].
  unfold get_next_id. now rewrite H.
Qed.

Lemma get_next_id_ints (notes : list note) (n : Z) :
  get_next_id notes = Ok n ->
  exists zs, note_ints notes = Ok zs /\ forall z, In z zs -> z < n.
Proof.
  destruct notes as [|x notes].
  - intros _. exists []. split; [reflexivity | intros z []].
  - unfold get_next_id. destruct (note_ints (x :: notes)) as [[|z zs]|] eqn:E;
      try discriminate.
    intro H. injection H as <-. exists (z :: zs). split; [reflexivity|].
    intros y Hy. apply py_max_upper in Hy. lia.
Qed.

Lemma get_next_id_total (notes : list note) :
  (exists n, get_next_id notes = Ok n)
  <-> Forall (fun x => py_int (Note.id x) <> None) notes.
Proof.
  rewrite <- note_ints_ok_iff. split.
  - intros [n H]. apply get_next_id_ints in H. destruct H as (zs & H & _).
    now exists zs.
  - intros [zs H]. destruct notes as [|x notes]; [now exists 1|].
    destruct zs as [|z zs].
    + cbn in H. destruct (py_int (Note.id x)); [|discriminate].
      destruct (note_ints notes); discriminate.
    + exists (py_max z zs + 1). now apply get_next_id_nonempty.
Qed.

Lemma get_next_id_raise (notes : list note) (e : exn) :
  get_next_id notes = Raise e -> e = ValueError.
Proof.
  destruct notes as [|x notes]; [discriminate|]. unfold get_next_id.
  destruct (note_ints (x :: notes)) as [[|z zs]|e'] eqn:E; try discriminate.
  - congruence.
  - intro H. injection H as <-. now apply note_ints_raise in E.
Qed.

Lemma get_next_id_fresh (notes : list note) (n : Z) :
  get_next_id notes = Ok n ->
  forall x, In x notes -> Note.id x <> str_of_Z n.
Proof.
  intros H x Hx E. apply get_next_id_ints in H. destruct H as (zs & Hz & Hlt).
  destruct (note_ints_in _ _ _ Hz Hx) as (z & Hin & Hp).
  apply py_int_parse in Hp. rewrite E, parse_int_str_of_Z in Hp.
  injection Hp as ->. specialize (Hlt _ Hin). lia.
Qed.






Lemma find_in_none (s : string) (notes : list note) :
  (forall n, In n notes -> Note.id n <> s) -> find_in s notes = None.
Proof.
  induction notes as [|n notes IH]; intro H; cbn; [reflexivity|].
  destruct (String.eqb_spec (Note.id n) s) as [E|E].
  - exfalso. apply (H n); [now left | exact E].
  - apply IH. intros m Hm. apply H. now right.
Qed.

(** Deleting under an id that no listed record has removes at most a row
    that [load_notes] skips. *)
Lemma delete_row_unlisted (s : string) (rows : sheet) :
  (forall n, In n (spec_listAll rows) -> Note.id n <> s) ->
  spec_listAll (delete_row s rows) = spec_listAll rows.
Proof.
  unfold spec_listAll.
  induction rows as [|r rows IH]; intro H; cbn [delete_row]; [reflexivity|].
  cbn [filter map] in *. destruct (truthy (ID r)) eqn:T.
  - destruct (String.eqb_spec (py_str (ID r)) s) as [E|E].
    + exfalso. apply (H (note_of_row r)); [now left | exact E].
    + cbn [filter map]. rewrite T. cbn [map]. f_equal.
      apply IH. intros n Hn. apply H. now right.
  - destruct (String.eqb_spec (py_str (ID r)) s) as [E|E]; [reflexivity|].
    cbn [filter]. rewrite T. now apply IH.
Qed.

Lemma seen_nil_absent (s : string) (rows : sheet) :
  seen s rows = [] -> absent s rows.
Proof.
  unfold seen. induction rows as [|r rows IH]; intros H x Hx; [destruct Hx|].
  cbn [filter] in H. destruct (String.eqb_spec (row_key r) s) as [E|E];
    [discriminate|].
  destruct Hx as [<-|Hx]; [exact E | now apply IH].
Qed.

Lemma absent_seen_nil (s : string) (rows : sheet) :
  absent s rows -> seen s rows = [].
Proof.
  unfold seen. induction rows as [|r rows IH]; intro H; [reflexivity|].
  cbn [filter]. destruct (String.eqb_spec (row_key r) s) as [E|E].
  - exfalso. apply (H r); [now left | exact E].
  - apply IH. intros x Hx. apply H. now right.
Qed.

Lemma delete_row_at_most_once (s : string) (rows : sheet) :
  seen_at_most_once s rows -> absent s (delete_row s rows).
Proof.
  unfold seen_at_most_once, seen.
  induction rows as [|r rows IH]; intro H; cbn [delete_row].
  - intros x [].
  - cbn [filter] in H. unfold row_key at 1 in H.
    destruct (String.eqb_spec (py_str (ID r)) s) as [E|E].
    + apply seen_nil_absent. unfold seen.
      destruct (filter _ rows); [reflexivity | cbn in H; lia].
    + intros x [<-|Hx]; [exact E | now apply IH].
Qed.

Lemma nodup_seen_at_most_once (s : string) (rows : sheet) :
  NoDup (map row_key rows) -> seen_at_most_once s rows.
Proof.
  unfold seen_at_most_once. induction rows as [|r rows IH]; intro H; [cbn; lia|].
  inversion H as [|k ks Hnotin Hnodup]; subst. unfold seen. cbn [filter].
  destruct (String.eqb_spec (row_key r) s) as [E|E]; [|now apply IH].
  fold (seen s rows). rewrite absent_seen_nil; [cbn; lia|].
  intros x Hx Hk. apply Hnotin. rewrite E, <- Hk. now apply in_map.
Qed.

Lemma listed_unique_seen_at_most_once (s : string) (rows : sheet) :
  NoDup (map Note.id (spec_listAll rows)) ->
  (forall r, In r rows -> truthy (ID r) = false -> row_key r <> s) ->
  seen_at_most_once s rows.
Proof.
  unfold seen_at_most_once, spec_listAll.
  induction rows as [|r rows IH]; intros Hu Hh; [cbn; lia|].
  assert (Hh' : forall x, In x rows -> truthy (ID x) = false -> row_key x <> s)
    by (intros x Hx; apply Hh; now right).
  cbn [filter map] in Hu. unfold seen. cbn [filter].
  destruct (String.eqb_spec (row_key r) s) as [E|E].
  - fold (seen s rows). rewrite absent_seen_nil; [cbn; lia|].
    intros x Hx Hk. destruct (truthy (ID r)) eqn:T.
    + cbn [map] in Hu. inversion Hu as [|k ks Hnotin _]; subst.
      apply Hnotin. destruct (truthy (ID x)) eqn:Tx.
      * change (py_str (ID r)) with (row_key r). rewrite <- Hk.
        change (row_key x) with (Note.id (note_of_row x)).
        apply in_map. apply in_map. apply filter_In. now split.
      * exfalso. exact (Hh' x Hx Tx Hk).
    + apply (Hh r); [now left | exact T | exact E].
  - apply IH; [|exact Hh'].
    destruct (truthy (ID r)); [|exact Hu].
    cbn [map] in Hu. now inversion Hu.
Qed.


(** ** [save_note] *)

Lemma set_values_raise (r : row) (t c now : string) (e : exn) :
  set_values r t c now = Raise e -> e = IllegalCharacterError.
Proof.
  rewrite set_values_run. destruct (_ && _); congruence.
Qed.

Lemma update_row_raise (s t c now : string) (rows : sheet) (e : exn) :
  update_row s t c now rows = Raise e -> e = IllegalCharacterError.
Proof.
  induction rows as [|r rows IH]; cbn [update_row]; [discriminate|].
  destruct (String.eqb (py_str (ID r)) s).
  - unfold and_then. destruct (set_values r t c now) eqn:E; [discriminate|].
    intro H. injection H as <-. now apply set_values_raise in E.
  - unfold and_then. destruct (update_row s t c now rows) as [[x|]|e'];
      try discriminate.
    intro H. injection H as <-. now apply IH.
Qed.

Lemma sheet_append_raise (sh : sheet) (n : Z) (t c now : string) (e : exn) :
  sheet_append sh n t c now now = Raise e -> e = IllegalCharacterError.
Proof.
  rewrite sheet_append_run. destruct (_ && _); congruence.
Qed.

(** The creation path: no id is given, or no row is seen under it. *)
Lemma save_note_creation_path {ox : Openpyxl} (now : string)
    (nid : option string) (t c : string) (db : database) :
  (id_given nid = None
   \/ exists s, id_given nid = Some s /\ absent s (data_rows db)) ->
  save_note now nid t c db = append_note now t c (data_rows db) (opened db).
Proof.
  intro H. rewrite save_note_run. destruct H as [-> | (s & -> & Habs)].
  - reflexivity.
  - now rewrite (update_row_absent _ _ _ _ _ Habs).
Qed.

Lemma save_note_create_raise {ox : Openpyxl} (now : string)
    (nid : option string) (t c : string) (db : database) (e : exn) :
  (id_given nid = None
   \/ exists s, id_given nid = Some s /\ absent s (data_rows db)) ->
  get_next_id (spec_listAll (data_rows db)) = Raise e ->
  save_note now nid t c db = (Raise e, opened db).
Proof.
  intros Hid He. rewrite (save_note_creation_path _ _ _ _ _ Hid).
  rewrite append_note_run. cbn [data_rows opened active]. now rewrite He.
Qed.


Lemma save_note_update_run {ox : Openpyxl} (now s t c : string)
    (db : database) (pre : sheet) (r : row) (post : sheet) :
  str_truthy s = true ->
  data_rows db = pre ++ r :: post ->
  absent s pre ->
  row_key r = s ->
  settled (data_rows db) ->
  save_note now (Some s) t c db
  = if accepted t && accepted c && accepted now
    then (Ok s, Some (mkWorkbook (pre ++ updated_row r now t c :: post)))
    else (Raise IllegalCharacterError, opened db).
Proof.
  intros Hs Hrows Hpre Hr Hset. rewrite save_note_run. cbn [id_given].
  rewrite Hs, Hrows. rewrite (update_row_first _ _ _ _ _ _ _ Hpre Hr).
  rewrite set_values_run. destruct (_ && _); [|reflexivity].
  cbn [and_then]. rewrite Hrows in Hset. now rewrite (reload_update _ _ _ _ _ _ Hset).
Qed.

(** [save_note] raises one of three exceptions; when it raises before it
    saves, the file is afterwards the one it found (created, had it been
    missing). *)
Lemma save_note_raises {ox : Openpyxl} (now : string) (nid : option string)
    (t c : string) (db : database) (e : exn) (db' : database) :
  save_note now nid t c db = (Raise e, db') ->
  (e = ValueError \/ e = IllegalCharacterError \/ e = OverflowError)
  /\ (e <> OverflowError -> db' = opened db).
Proof.
  rewrite save_note_run.
  assert (Happ : append_note now t c (data_rows db) (opened db) = (Raise e, db')
                 -> (e = ValueError \/ e = IllegalCharacterError
                     \/ e = OverflowError)
                    /\ (e <> OverflowError -> db' = opened db)).
  { rewrite append_note_run. cbn [data_rows opened active].
    destruct (get_next_id _) as [n|e1] eqn:E1.
    - destruct (sheet_append _ _ _ _ _ _) as [sh'|e2] eqn:E2.
      + destruct (reload sh') as [rows|e3] eqn:E3; [discriminate|].
        intro H. injection H as <- <-. apply reload_raise in E3. auto.
      + intro H. injection H as <- <-. apply sheet_append_raise in E2. auto.
    - intro H. injection H as <- <-. apply get_next_id_raise in E1. auto. }
  destruct (id_given nid) as [s|]; [|exact Happ].
  destruct (update_row s t c now (data_rows db)) as [[sh'|]|e1] eqn:E1.
  - destruct (reload sh') as [rows|e3] eqn:E3; [discriminate|].
    intro H. injection H as <- <-. apply reload_raise in E3. auto.
  - exact Happ.
  - intro H. injection H as <- <-. apply update_row_raise in E1. auto.
Qed.

Lemma save_note_file_exists {ox : Openpyxl} (now : string)
    (nid : option string) (t c : string) (db : database) :
  snd (save_note now nid t c db) <> None.
Proof.
  destruct (save_note now nid t c db) as [[saved|e] db'] eqn:E; cbn [snd].
  - rewrite save_note_run in E.
    assert (Happ : append_note now t c (data_rows db) (opened db)
                   = (Ok saved, db') -> db' <> None).
    { rewrite append_note_run.
      destruct (get_next_id _); [|discriminate].
      destruct (sheet_append _ _ _ _ _ _) as [sh'|]; [|discriminate].
      destruct (reload sh'); [|discriminate].
      intro H. injection H as _ <-. discriminate. }
    destruct (id_given nid) as [s|]; [|now apply Happ].
    destruct (update_row s t c now (data_rows db)) as [[sh'|]|e1];
      [|now apply Happ|discriminate].
    destruct (reload sh'); [|discriminate].
    injection E as _ <-. discriminate.
  - rewrite save_note_run in E.
    assert (Happ : append_note now t c (data_rows db) (opened db)
                   = (Raise e, db') -> db' <> None).
    { rewrite append_note_run.
      destruct (get_next_id _); [|intro H; injection H as _ <-; discriminate].
      destruct (sheet_append _ _ _ _ _ _) as [sh'|];
        [|intro H; injection H as _ <-; discriminate].
      destruct (reload sh'); [discriminate|].
      intro H. injection H as _ <-. discriminate. }
    destruct (id_given nid) as [s|]; [|now apply Happ].
    destruct (update_row s t c now (data_rows db)) as [[sh'|]|e1];
      [|now apply Happ|injection E as _ <-; discriminate].
    destruct (reload sh'); [discriminate|].
    injection E as _ <-. discriminate.
Qed.

(** In the creation path [save_note] raises [ValueError] exactly when
    [get_next_id] does. *)
Lemma save_note_create_value_error {ox : Openpyxl} (now : string)
    (nid : option string) (t c : string) (db : database) :
  (id_given nid = None
   \/ exists s, id_given nid = Some s /\ absent s (data_rows db)) ->
  fst (save_note now nid t c db) = Raise ValueError
  <-> get_next_id (spec_listAll (data_rows db)) = Raise ValueError.
Proof.
  intro Hid. rewrite (save_note_creation_path _ _ _ _ _ Hid).
  rewrite append_note_run. cbn [data_rows opened active].
  destruct (get_next_id _) as [n|e1] eqn:E1.
  - destruct (sheet_append _ _ _ _ _ _) as [sh'|e2] eqn:E2.
    + destruct (reload sh') as [rows|e3] eqn:E3; cbn [fst].
      * split; discriminate.
      * apply reload_raise in E3. subst e3. split; discriminate.
    + apply sheet_append_raise in E2. subst e2. cbn [fst]. split; discriminate.
  - cbn [fst]. split; intro H; injection H as ->; reflexivity.
Qed.


(** ** What [save_note] writes *)




(* ================================================================== *)
(** * The properties of the record store                               *)
(* ================================================================== *)

(** The scenario of the specification: a first note in an empty store gets
    the ID "1" and equal creation and modification times; saving it again
    under "1" changes title, content and modification time only. *)
Example scenario_shopping :
  let db1 :=
    Some (mkWorkbook
       [mkRow (PInt 1) (PStr "Shopping") (PStr "milk, eggs")
          (PStr "2026-11-03 10:00:00") (PStr "2026-11-03 10:00:00")]) in
  let db2 :=
    Some (mkWorkbook
       [mkRow (PInt 1) (PStr "Shopping List") (PStr "milk, eggs, bread")
          (PStr "2026-11-03 10:00:00") (PStr "2026-11-03 10:05:00")]) in
  save_note "2026-11-03 10:00:00" None "Shopping" "milk, eggs" None
  = (Ok "1", db1)
  /\ load_notes db1
     = (Ok [Note.mk "1" (PStr "Shopping") (PStr "milk, eggs")
              (PStr "2026-11-03 10:00:00") (PStr "2026-11-03 10:00:00")],
        db1)
  /\ save_note "2026-11-03 10:05:00" (Some "1") "Shopping List"
       "milk, eggs, bread" db1
     = (Ok "1", db2)
  /\ find_note "1" db2
     = (Ok (Some (Note.mk "1" (PStr "Shopping List")
                    (PStr "milk, eggs, bread")
                    (PStr "2026-11-03 10:00:00")
                    (PStr "2026-11-03 10:05:00"))),
        db2).
Proof. vm_compute. repeat split. Qed.










(** C4 (as amended).  An ID that is not there is not an error.  When no
    listed record has the id, [find_note] returns [None] and [delete_note],
    on a store as a file holds it, leaves the listed records as they are;
    when no row at all is seen under the id, [delete_note] leaves the data
    rows of such a store as they are (an existing file is left exactly as
    it is).  When at most one data row is seen under the id, [delete_note]
    followed by [find_note] on it returns [None]; this is so when the
    printed IDs of all data rows are pairwise distinct, and when the IDs of
    the listed records are pairwise distinct and no row with a falsy ID
    cell is seen under the id. *)
Theorem not_found_is_not_an_error {ox : Openpyxl} (s : string) (db : database) :
  ((forall n, In n (spec_listAll (data_rows db)) -> Note.id n <> s) ->
   find_note s db = (Ok None, opened db)
   /\ (settled (data_rows db) ->
       exists db',
         delete_note s db = (Ok tt, db')
         /\ spec_listAll (data_rows db') = spec_listAll (data_rows db)))
  /\ (absent s (data_rows db) ->
      settled (data_rows db) ->
      delete_note s db = (Ok tt, opened db)
      /\ data_rows (opened db) = data_rows db
      /\ forall wb, db = Some wb -> opened db = db)
  /\ (seen_at_most_once s (data_rows db) ->
      settled (data_rows db) ->
      exists db',
        delete_note s db = (Ok tt, db')
        /\ find_note s db' = (Ok None, db'))
  /\ (NoDup (map row_key (data_rows db)) ->
      seen_at_most_once s (data_rows db))
  /\ (NoDup (map Note.id (spec_listAll (data_rows db))) ->
      (forall r, In r (data_rows db) -> truthy (ID r) = false ->
                 row_key r <> s) ->
      seen_at_most_once s (data_rows db)).
Proof.
  split; [|split; [|split; [|split]]].
  - intro H. split.
    + rewrite find_note_run. now rewrite find_in_none.
    + intro Hset. eexists. split; [now apply delete_note_settled|].
      cbn [data_rows active]. rewrite spec_listAll_drop_trailing_blank.
      now apply delete_row_unlisted.
  - intros H Hset. split; [|split].
    + rewrite (delete_note_settled _ _ Hset), (delete_row_absent _ _ H).
      apply settled_iff in Hset. destruct Hset as [_ He].
      now rewrite (proj2 (drop_trailing_blank_fixed _) He).
    + reflexivity.
    + intros wb ->. apply opened_some.
  - intros H Hset. eexists. split; [now apply delete_note_settled|].
    rewrite find_note_run. cbn [data_rows active opened].
    rewrite find_in_absent; [reflexivity|].
    now apply absent_drop_trailing_blank, delete_row_at_most_once.
  - apply nodup_seen_at_most_once.
  - apply listed_unique_seen_at_most_once.
Qed.

Lemma not_found_is_not_an_error_witness :
  let db := Some (mkWorkbook
              [mkRow (PInt 1) (PStr "a") PNone (PStr "d") (PStr "d");
               mkRow PNone PNone PNone PNone PNone;
               mkRow (PInt 2) (PStr "b") PNone (PStr "d") (PStr "d")]) in
  (find_note "5" db = (Ok None, opened db)
   /\ exists db',
        delete_note "5" db = (Ok tt, db')
        /\ spec_listAll (data_rows db') = spec_listAll (data_rows db))
  /\ (delete_note "5" db = (Ok tt, opened db)
      /\ data_rows (opened db) = data_rows db
      /\ forall wb, db = Some wb -> opened db = db)
  /\ (exists db',
        delete_note "2" db = (Ok tt, db')
        /\ find_note "2" db' = (Ok None, db')).
Proof.
  intro db.
  assert (Hset : settled (data_rows db)) by (vm_compute; reflexivity).
  split; [|split].
  - destruct (proj1 (not_found_is_not_an_error "5" db)) as [Hf Hd].
    + intros n [<-|[<-|[]]]; discriminate.
    + split; [exact Hf | exact (Hd Hset)].
  - apply (proj1 (proj2 (not_found_is_not_an_error "5" db))).
    + intros x [<-|[<-|[<-|[]]]]; discriminate.
    + exact Hset.
  - apply (proj1 (proj2 (proj2 (not_found_is_not_an_error "2" db)))).
    + apply (proj2 (proj2 (proj2 (proj2 (not_found_is_not_an_error "2" db))))).
      * cbn. repeat constructor; cbn; intuition discriminate.
      * intros r [<-|[<-|[<-|[]]]]; discriminate.
    + exact Hset.
Defined.

(** C4, as stated, fails although the only record has a unique ID:
    [delete_note] compares the printed ID cell of every row, so on the id
    "None" it removes the blank row above the record, and [find_note] still
    returns the record. *)
Lemma delete_note_removes_blank_row :
  let record := mkRow (PStr "None") (PStr "t") (PStr "c") (PStr "d") (PStr "d") in
  let db := Some (mkWorkbook [mkRow PNone PNone PNone PNone PNone; record]) in
  let db' := Some (mkWorkbook [record]) in
  map Note.id (spec_listAll (data_rows db)) = ["None"%string]
  /\ delete_note "None" db = (Ok tt, db')
  /\ find_note "None" db'
     = (Ok (Some (Note.mk "None" (PStr "t") (PStr "c") (PStr "d") (PStr "d"))),
        db').
Proof. vm_compute. repeat split. Qed.

(** C5.  [load_notes] never raises; it skips every row whose ID cell is
    empty or falsy and returns the records of the other rows in the order of
    the rows.  A text cell that is missing is read as the empty string. *)
Theorem load_notes_skips_blank_rows :
  (forall db,
     load_notes db
     = (Ok (map note_of_row (filter (fun r => truthy (ID r)) (data_rows db))),
        opened db))
  /\ (forall i,
        note_of_row (mkRow i PNone PNone PNone PNone)
        = Note.mk (py_str i) (PStr "") (PStr "") (PStr "") (PStr ""))
  /\ (forall i a b c d,
        truthy a = true -> truthy b = true -> truthy c = true ->
        truthy d = true ->
        note_of_row (mkRow i a b c d) = Note.mk (py_str i) a b c d).
Proof.
  split; [|split].
  - intro db. apply load_notes_run.
  - reflexivity.
  - intros i a b c d Ha Hb Hc Hd. unfold note_of_row, py_or. cbn.
    now rewrite Ha, Hb, Hc, Hd.
Qed.

Lemma load_notes_skips_blank_rows_witness :
  load_notes
    (Some (mkWorkbook
       [mkRow (PInt 1) (PStr "a") PNone (PStr "d") (PStr "d");
        mkRow PNone (PStr "lost") PNone PNone PNone;
        mkRow (PInt 0) (PStr "zero") PNone PNone PNone;
        mkRow (PStr "") (PStr "empty") PNone PNone PNone;
        mkRow (PInt 2) PNone (PStr "c") PNone PNone]))
  = (Ok [Note.mk "1" (PStr "a") (PStr "") (PStr "d") (PStr "d");
         Note.mk "2" (PStr "") (PStr "c") (PStr "") (PStr "")],
     Some (mkWorkbook
       [mkRow (PInt 1) (PStr "a") PNone (PStr "d") (PStr "d");
        mkRow PNone (PStr "lost") PNone PNone PNone;
        mkRow (PInt 0) (PStr "zero") PNone PNone PNone;
        mkRow (PStr "") (PStr "empty") PNone PNone PNone;
        mkRow (PInt 2) PNone (PStr "c") PNone PNone])).
Proof.
  exact (proj1 load_notes_skips_blank_rows
           (Some (mkWorkbook
              [mkRow (PInt 1) (PStr "a") PNone (PStr "d") (PStr "d");
               mkRow PNone (PStr "lost") PNone PNone PNone;
               mkRow (PInt 0) (PStr "zero") PNone PNone PNone;
               mkRow (PStr "") (PStr "empty") PNone PNone PNone;
               mkRow (PInt 2) PNone (PStr "c") PNone PNone]))).
Defined.

(* ================================================================== *)
(** * Facts about the encodings                                        *)
(* ================================================================== *)

Lemma string_app_assoc (a b c : string) :
  ((a ++ b) ++ c)%string = (a ++ (b ++ c))%string.
Proof. induction a as [|x a IH]; cbn; [reflexivity | now rewrite IH]. Qed.

(** The code's formatted string is the block of the specification. *)
Lemma note_plaintext_is_spec_block (n : note) :
  note_plaintext n
  = spec_plaintext_block
      (py_str (Note.title n)) (py_str (Note.date_created n))
      (py_str (Note.last_modified n)) (py_str (Note.content n)).
Proof.
  unfold note_plaintext, spec_plaintext_block. cbn [String.concat].
  repeat rewrite string_app_assoc. reflexivity.
Qed.

(** Induction over a list three elements at a time, as [b64encode] reads
    its input. *)
Lemma list_ind3 {A : Type} (P : list A -> Prop) :
  P [] -> (forall a, P [a]) -> (forall a b, P [a; b]) ->
  (forall a b c rest, P rest -> P (a :: b :: c :: rest)) ->
  forall l, P l.
Proof.
  intros H0 H1 H2 H3 l.
  assert (G : P l /\ (forall a, P (a :: l)) /\ (forall a b, P (a :: b :: l))).
  { induction l as [|x l (I0 & I1 & I2)].
    - repeat split; auto.
    - repeat split; auto. }
  apply G.
Qed.

Lemma b64_char_not_newline (n : Z) : b64_char n <> x0a.
Proof.
  unfold b64_char. generalize (Z.to_nat n) as k. intro k.
  do 64 (destruct k as [|k]; [cbn; discriminate|]).
  cbn. discriminate.
Qed.

Lemma b64encode_no_newline (data : bytes) : ~ In x0a (b64encode data).
Proof.
  induction data as [|a|a b|a b c rest IH] using list_ind3;
    cbn [b64encode In];
    repeat (intros [H|H];
            [solve [ now apply b64_char_not_newline in H | discriminate H ]
            | revert H]); auto.
Qed.

Lemma b64encode_length (data : bytes) :
  List.length (b64encode data)
  = (4 * ((List.length data + 2) / 3))%nat.
Proof.
  induction data as [|a|a b|a b c rest IH] using list_ind3;
    try reflexivity.
  cbn [b64encode List.length]. rewrite IH.
  replace (S (S (S (List.length rest))) + 2)%nat
    with (List.length rest + 2 + 1 * 3)%nat by lia.
  rewrite Nat.div_add by lia. lia.
Qed.

Lemma os_urandom_length (n : nat) (e : entropy) :
  List.length (fst (os_urandom n e)) = n.
Proof. cbn. now rewrite length_map, length_seq. Qed.

Example b64encode_rfc4648 :
  map (fun s => string_of_list_byte (b64encode (list_byte_of_string s)))
    ["f"; "fo"; "foo"; "foob"; "fooba"; "foobar"]%string
  = ["Zg=="; "Zm8="; "Zm9v"; "Zm9vYg=="; "Zm9vYmE="; "Zm9vYmFy"]%string.
Proof. reflexivity. Qed.

Example urlsafe_b64encode_vector :
  urlsafe_b64encode [xfb; xff; xfe]
  = list_byte_of_string "-__-"
  /\ b64encode [xfb; xff; xfe]
     = list_byte_of_string "+//+".
Proof. split; reflexivity. Qed.

Example utf8_encode_vector :
  utf8_encode (String (ascii_of_N 233) "a")
  = [xc3; xa9; x61].
Proof. reflexivity. Qed.

(* ================================================================== *)
(** * The properties of the secure exporter                            *)
(* ================================================================== *)

(** C6.  The payload of [encrypt_note] is the base64 text of the salt, a
    newline and the token.  The salt is the 16 bytes drawn from the random
    source by this call; the token is the Fernet encryption, under the
    url-safe base64 text of the PBKDF2-HMAC-SHA256 output (390000
    iterations, 32 bytes) for the UTF-8 password and the salt, of the UTF-8
    text of the block
    [Title: <title>\nCreated: <date_created>\nLast Modified: <last_modified>\n\n<content>].
    The base64 text of the salt has 24 characters, none a newline, so the
    first newline of the payload separates the salt from the token. *)
Theorem encrypt_note_payload {crypto : Cryptography}
    (n : note) (password : string) (e : entropy) (t : Z) :
  let salt := fst (os_urandom 16 e) in
  let key :=
    urlsafe_b64encode
      (pbkdf2_hmac SHA256 32 salt 390000%N (utf8_encode password)) in
  let block :=
    spec_plaintext_block
      (py_str (Note.title n)) (py_str (Note.date_created n))
      (py_str (Note.last_modified n)) (py_str (Note.content n)) in
  let token :=
    fst (fernet_encrypt key (snd (os_urandom 16 e)) t (utf8_encode block)) in
  fst (encrypt_note n password e t)
  = b64encode salt ++ [x0a] ++ token
  /\ salt = map e (seq 0 16)
  /\ List.length salt = 16%nat
  /\ List.length (b64encode salt) = 24%nat
  /\ ~ In x0a (b64encode salt)
  /\ derive_key password salt = key.
Proof.
  intros salt key block token. split; [|split; [|split; [|split; [|split]]]].
  - unfold encrypt_note. subst token block key salt.
    rewrite <- note_plaintext_is_spec_block.
    destruct (os_urandom 16 e) as [salt e1] eqn:E. cbn [fst snd].
    destruct (fernet_encrypt _ _ _ _) as [token e2]. reflexivity.
  - reflexivity.
  - apply os_urandom_length.
  - rewrite b64encode_length. subst salt. now rewrite os_urandom_length.
  - apply b64encode_no_newline.
  - reflexivity.
Qed.

(* ================================================================== *)
(** * The boundary and the corner cases of the IDs                     *)
(* ================================================================== *)





Lemma get_next_id_raises_iff (notes : list note) :
  get_next_id notes = Raise ValueError
  <-> Exists (fun x => py_int (Note.id x) = None) notes.
Proof.
  assert (D : forall x : note,
            {py_int (Note.id x) = None} + {~ py_int (Note.id x) = None}).
  { intro x. destruct (py_int (Note.id x)); [right; discriminate | now left]. }
  pose proof (get_next_id_total notes) as T.
  rewrite Forall_Exists_neg in T. split.
  - intro H. destruct (Exists_dec _ notes D) as [Y|N]; [exact Y|].
    apply T in N. destruct N as [n N]. congruence.
  - intro H. destruct (get_next_id notes) as [n|e] eqn:E.
    + exfalso. apply (proj1 T); [now exists n | exact H].
    + now rewrite (get_next_id_raise _ _ E).
Qed.

(** C9 (as amended).  [get_next_id] returns an ID exactly when the id of
    every listed record converts to an integer, and the only error it
    raises is the conversion error.  So the creation path of [save_note]
    raises [ValueError] exactly when some listed record has an id that does
    not convert, and a store with a listed row (its ID cell is truthy)
    whose ID cell does not read as an integer makes creation raise
    [ValueError], leaving the rows as they are. *)
Theorem get_next_id_needs_numeric_ids {ox : Openpyxl} :
  (forall notes,
     (exists n, get_next_id notes = Ok n)
     <-> Forall (fun x => py_int (Note.id x) <> None) notes)
  /\ (forall notes e, get_next_id notes = Raise e -> e = ValueError)
  /\ (forall now nid t c db,
        (id_given nid = None
         \/ exists s, id_given nid = Some s /\ absent s (data_rows db)) ->
        (fst (save_note now nid t c db) = Raise ValueError
         <-> Exists (fun x => py_int (Note.id x) = None)
               (spec_listAll (data_rows db))))
  /\ (forall now nid t c db r,
        (id_given nid = None
         \/ exists s, id_given nid = Some s /\ absent s (data_rows db)) ->
        In r (data_rows db) ->
        truthy (ID r) = true ->
        py_int (py_str (ID r)) = None ->
        save_note now nid t c db = (Raise ValueError, opened db)).
Proof.
  split; [exact get_next_id_total | split; [exact get_next_id_raise | split]].
  - intros now nid t c db Hid.
    rewrite (save_note_create_value_error _ _ _ _ _ Hid).
    apply get_next_id_raises_iff.
  - intros now nid t c db r Hid Hin Htr Hint.
    apply save_note_create_raise; [exact Hid|].
    apply get_next_id_raises_iff. apply Exists_exists.
    exists (note_of_row r). split; [|exact Hint].
    unfold spec_listAll. apply in_map. apply filter_In. now split.
Qed.

Lemma get_next_id_needs_numeric_ids_witness :
  save_note "2026-11-03 10:00:00" None "T" "C"
    (Some (mkWorkbook
       [mkRow (PInt 1) (PStr "a") PNone (PStr "d") (PStr "d");
        mkRow (PStr "n-7") (PStr "b") PNone (PStr "d") (PStr "d")]))
  = (Raise ValueError,
     opened (Some (mkWorkbook
       [mkRow (PInt 1) (PStr "a") PNone (PStr "d") (PStr "d");
        mkRow (PStr "n-7") (PStr "b") PNone (PStr "d") (PStr "d")]))).
Proof.
  apply (proj2 (proj2 (proj2 get_next_id_needs_numeric_ids))
           "2026-11-03 10:00:00" None "T" "C" _
           (mkRow (PStr "n-7") (PStr "b") PNone (PStr "d") (PStr "d"))).
  - left. reflexivity.
  - right. left. reflexivity.
  - reflexivity.
  - reflexivity.
Defined.

(** C9, as stated ("any non-numeric ID cell"), fails: an ID cell that is
    empty or holds [False] does not read as an integer, but [load_notes]
    skips its row, so [get_next_id] never converts it and creation returns
    an ID. *)
Lemma creation_skips_falsy_id_cells :
  let rows :=
    [mkRow PNone (PStr "lost") PNone PNone PNone;
     mkRow (PBool false) (PStr "off") PNone PNone PNone] in
  py_int (py_str PNone) = None
  /\ py_int (py_str (PBool false)) = None
  /\ save_note "2026-11-03 10:00:00" None "T" "C" (Some (mkWorkbook rows))
     = (Ok "1",
        Some (mkWorkbook
           (rows ++ [mkRow (PInt 1) (PStr "T") (PStr "C")
                       (PStr "2026-11-03 10:00:00")
                       (PStr "2026-11-03 10:00:00")]))).
Proof. vm_compute. repeat split. Qed.

(** C10.  The update loop of [save_note] compares the printed ID cell of
    every row, also of rows whose ID cell is falsy, which [load_notes] and
    [find_note] skip.  When the first row seen under a non-empty id [s] is
    such a row (and no listed row is seen under [s]), [save_note], on a
    store as a file holds it and with plain texts, updates it and returns
    [s], and [find_note] on [s] returns [None]. *)
Theorem save_note_updates_hidden_row {ox : Openpyxl}
    (now s t c : string) (db : database) (pre : sheet) (r : row)
    (post : sheet) :
  str_truthy s = true ->
  data_rows db = pre ++ r :: post ->
  absent s pre ->
  row_key r = s ->
  truthy (ID r) = false ->
  (forall x, In x post -> truthy (ID x) = true -> row_key x <> s) ->
  settled (data_rows db) ->
  plain_text t = true ->
  plain_text c = true ->
  plain_text now = true ->
  let db' :=
    Some (mkWorkbook
            (pre ++ mkRow (ID r) (stored_text t) (stored_text c)
                      (DateCreated r) (stored_text now)
                 :: post)) in
  save_note now (Some s) t c db = (Ok s, db')
  /\ find_note s db' = (Ok None, db').
Proof.
  intros Hs Hrows Hpre Hr Hfalsy Hpost Hset Ht Hc Hn db'. split.
  - rewrite (save_note_update_run _ _ _ _ _ _ _ _ Hs Hrows Hpre Hr Hset).
    rewrite (plain_accepted_all _ _ _ Ht Hc Hn).
    unfold updated_row. now rewrite !kept_text_plain.
  - rewrite find_note_run. subst db'. cbn [data_rows active opened].
    f_equal. f_equal.
    rewrite spec_listAll_app.
    assert (Hnone : forall rows,
              (forall x, In x rows -> truthy (ID x) = true -> row_key x <> s) ->
              forall tail, find_in s (spec_listAll rows ++ tail) = find_in s tail).
    { induction rows as [|x rows IH]; intros H tail; [reflexivity|].
      unfold spec_listAll in *. cbn [filter].
      destruct (truthy (ID x)) eqn:Tx.
      - cbn [map app find_in note_of_row Note.id].
        destruct (String.eqb_spec (py_str (ID x)) s) as [E|E].
        + exfalso. apply (H x); [now left | exact Tx | exact E].
        + apply IH. intros y Hy. apply H. now right.
      - apply IH. intros y Hy. apply H. now right. }
    rewrite Hnone by (intros x Hx _; now apply Hpre).
    change (?a :: post) with ([a] ++ post). rewrite spec_listAll_app.
    unfold spec_listAll at 1. cbn [filter ID]. rewrite Hfalsy. cbn [map app].
    rewrite <- (List.app_nil_r (spec_listAll post)). now rewrite Hnone.
Qed.

Lemma save_note_updates_hidden_row_witness :
  (let db' :=
     Some (mkWorkbook
             ([] ++ mkRow (PInt 0) (stored_text "T") (stored_text "C")
                      (PStr "d") (stored_text "u")
                 :: [mkRow (PInt 1) (PStr "a") PNone (PStr "d") (PStr "d")])) in
   save_note "u" (Some "0") "T" "C"
     (Some (mkWorkbook
        [mkRow (PInt 0) (PStr "z") PNone (PStr "d") (PStr "d");
         mkRow (PInt 1) (PStr "a") PNone (PStr "d") (PStr "d")]))
   = (Ok "0", db')
   /\ find_note "0" db' = (Ok None, db'))
  /\ (let db' :=
        Some (mkWorkbook
                ([] ++ mkRow PNone (stored_text "T") (stored_text "C") PNone
                         (stored_text "u")
                    :: [mkRow (PInt 1) (PStr "a") PNone (PStr "d")
                          (PStr "d")])) in
      save_note "u" (Some "None") "T" "C"
        (Some (mkWorkbook
           [mkRow PNone PNone PNone PNone PNone;
            mkRow (PInt 1) (PStr "a") PNone (PStr "d") (PStr "d")]))
      = (Ok "None", db')
      /\ find_note "None" db' = (Ok None, db')).
Proof.
  split.
  - apply (save_note_updates_hidden_row "u" "0" "T" "C" _ []
             (mkRow (PInt 0) (PStr "z") PNone (PStr "d") (PStr "d"))
             [mkRow (PInt 1) (PStr "a") PNone (PStr "d") (PStr "d")]).
    + reflexivity.
    + reflexivity.
    + intros x [].
    + reflexivity.
    + reflexivity.
    + intros x [<-|[]] _. discriminate.
    + vm_compute. reflexivity.
    + reflexivity.
    + reflexivity.
    + reflexivity.
  - apply (save_note_updates_hidden_row "u" "None" "T" "C" _ []
             (mkRow PNone PNone PNone PNone PNone)
             [mkRow (PInt 1) (PStr "a") PNone (PStr "d") (PStr "d")]).
    + reflexivity.
    + reflexivity.
    + intros x [].
    + reflexivity.
    + reflexivity.
    + intros x [<-|[]] _. discriminate.
    + vm_compute. reflexivity.
    + reflexivity.
    + reflexivity.
    + reflexivity.
Defined.

(* ================================================================== *)
(** * What the workbook library changes: examples                      *)
(* ================================================================== *)

(** An empty title is written as an empty cell, which the record reads as
    the empty string again; a carriage return comes back as a line feed. *)
Example update_with_empty_title_and_carriage_returns :
  let db :=
    Some (mkWorkbook [mkRow (PInt 1) (PStr "a") (PStr "b") (PStr "d") (PStr "d")])
  in
  let db' :=
    Some (mkWorkbook
       [mkRow (PInt 1) PNone
          (PStr ("a" ++ String LF ("b" ++ String LF "c"))) (PStr "d")
          (PStr "u")]) in
  save_note "u" (Some "1") ""
    ("a" ++ String CR (String LF ("b" ++ String CR "c"))) db
  = (Ok "1", db')
  /\ find_note "1" db'
     = (Ok (Some (Note.mk "1" (PStr "")
                    (PStr ("a" ++ String LF ("b" ++ String LF "c")))
                    (PStr "d") (PStr "u"))),
        db').
Proof. vm_compute. repeat split. Qed.

(** A control character in the content of an update raises, and the file
    stays as it was; beyond the first 32767 characters it is cut away with
    them. *)
Example update_with_control_character :
  let db :=
    Some (mkWorkbook [mkRow (PInt 1) (PStr "a") (PStr "b") (PStr "d") (PStr "d")])
  in
  save_note "u" (Some "1") "T" (String (ascii_of_N 11) "c") db
  = (Raise IllegalCharacterError, db)
  /\ fst (save_note "u" (Some "1") "T"
            (repeat_char "c" 32767 ++ String (ascii_of_N 11) "") db)
     = Ok "1"%string.
Proof. vm_compute. repeat split. Qed.

(** From a largest ID of 2^53 every creation returns 2^53 + 1, which the
    file holds as 2^53: the returned IDs repeat, the rows share one ID, and
    [find_note] on the returned ID finds nothing. *)
Example ids_repeat_beyond_exact_integers :
  let first := mkRow (PInt 9007199254740992) (PStr "a") PNone (PStr "d") (PStr "d") in
  let db' :=
    Some (mkWorkbook
       [first;
        mkRow (PInt 9007199254740992) (PStr "b") PNone (PStr "u") (PStr "u");
        mkRow (PInt 9007199254740992) (PStr "c") PNone (PStr "v") (PStr "v")])
  in
  save_all [("u", "b", ""); ("v", "c", "")] (Some (mkWorkbook [first]))
  = (Ok ["9007199254740993"; "9007199254740993"], db')
  /\ find_note "9007199254740993" db' = (Ok None, db').
Proof. vm_compute. repeat split. Qed.

(** From a largest ID of 9999999999999998 the next ID is written as 1e+16
    and comes back as a float, whose text [int()] refuses: the creation
    after it raises. *)
Example ids_become_floats :
  let first := mkRow (PInt 9999999999999998) (PStr "a") PNone (PStr "d") (PStr "d") in
  let db' :=
    Some (mkWorkbook
       [first;
        mkRow (POther true "1e+16" true) (PStr "b") PNone (PStr "u") (PStr "u")])
  in
  save_note "u" None "b" "" (Some (mkWorkbook [first]))
  = (Ok "9999999999999999", db')
  /\ save_note "v" None "c" "" db' = (Raise ValueError, db').
Proof. vm_compute. repeat split. Qed.

(** A creation beside a record whose ID is 9007199254740994 returns
    9007199254740995 and leaves a row that is seen under 9007199254740996:
    [find_note] on that other id changes. *)
Example creation_changes_another_id :
  let first := mkRow (PInt 9007199254740994) (PStr "a") PNone (PStr "d") (PStr "d") in
  let db := Some (mkWorkbook [first]) in
  let db' :=
    Some (mkWorkbook
       [first;
        mkRow (PInt 9007199254740996) (PStr "b") PNone (PStr "u") (PStr "u")])
  in
  save_note "u" None "b" "" db = (Ok "9007199254740995", db')
  /\ find_note "9007199254740996" db = (Ok None, db)
  /\ find_note "9007199254740996" db'
     = (Ok (Some (Note.mk "9007199254740996" (PStr "b") (PStr "") (PStr "u")
                    (PStr "u"))),
        db').
Proof. vm_compute. repeat split. Qed.

(** Deleting the last record below a blank row takes the blank row with
    it. *)
Example delete_drops_blank_rows_at_the_end :
  delete_note "2"
    (Some (mkWorkbook
       [mkRow (PInt 1) (PStr "a") PNone (PStr "d") (PStr "d");
        mkRow PNone PNone PNone PNone PNone;
        mkRow (PInt 2) (PStr "b") PNone (PStr "d") (PStr "d")]))
  = (Ok tt,
     Some (mkWorkbook [mkRow (PInt 1) (PStr "a") PNone (PStr "d") (PStr "d")])).
Proof. vm_compute. reflexivity. Qed.

(** [int()] takes a literal of 4300 digits and refuses one of 4301. *)
Example int_digit_cap :
  py_int (repeat_char "9" 4300) = Some (10 ^ 4300 - 1)
  /\ py_int (repeat_char "9" 4301) = None
  /\ py_int (repeat_char "0" 4301) = None.
Proof. vm_compute. repeat split. Qed.

(** With a time in a date cell [search] raises [TypeError], whatever the
    query; [index] lists the record. *)
Example search_with_a_time_cell :
  let db :=
    Some (mkWorkbook
       [mkRow (PInt 1) (PStr "t") (PStr "c") (POther true "10:30:00" false)
          (PStr "d")]) in
  fst (search None db) = Failed TypeError
  /\ fst (search (Some "t"%string) db) = Failed TypeError
  /\ fst (search (Some "zz"%string) db) = Done (Json [])
  /\ fst (index db)
     = Ok (RenderIndex
             [Note.mk "1" (PStr "t") (PStr "c") (POther true "10:30:00" false)
                (PStr "d")]).
Proof. vm_compute. repeat split. Qed.

(** A title of 32768 characters whose last but one is a blank has nothing
    to strip, and is cut behind the blank: the title stored ends in white
    space. *)
Example stored_title_with_white_space_at_its_end :
  let long_title := (repeat_char "a" 32766 ++ " b")%string in
  let stored :=
    map (fun r => py_str (Title r))
      (data_rows
         (snd (save "2026-11-03 10:00:00" (mkForm None (Some long_title) None)
                 None))) in
  N.of_nat (String.length (strip long_title)) = 32768%N
  /\ map (fun s => N.of_nat (String.length s)) stored = [32767%N]
  /\ map (fun s => N.of_nat (String.length (strip s))) stored = [32766%N].
Proof. vm_compute. repeat split. Qed.

(* ================================================================== *)
(** * Facts about [strip], [lower], [in] and [sanitize_filename]        *)
(* ================================================================== *)



Lemma rstrip_cons (c : ascii) (s : string) :
  rstrip (String c s)
  = match rstrip s with
    | EmptyString => if is_space c then EmptyString else String c EmptyString
    | String d r => String c (String d r)
    end.
Proof. reflexivity. Qed.




Lemma lstrip_suffix (s : string) :
  exists a, s = (a ++ lstrip s)%string.
Proof.
  induction s as [|c s (a & IH)]; [now exists EmptyString|]. cbn.
  destruct (is_space c).
  - exists (String c a). cbn. now rewrite <- IH.
  - now exists EmptyString.
Qed.

Lemma rstrip_prefix (s : string) :
  exists b, s = (rstrip s ++ b)%string.
Proof.
  induction s as [|c s (b & IH)]; [now exists EmptyString|]. cbn.
  destruct (rstrip s) as [|d r].
  - destruct (is_space c).
    + exists (String c s). reflexivity.
    + exists b. cbn. now rewrite IH at 1.
  - exists b. cbn. now rewrite IH at 1.
Qed.

(** A string is its stripped part between two pieces. *)
Lemma strip_middle (s : string) :
  exists a b, s = (a ++ strip s ++ b)%string.
Proof.
  destruct (lstrip_suffix s) as (a & Ha).
  destruct (rstrip_prefix (lstrip s)) as (b & Hb).
  exists a, b. unfold strip. now rewrite <- Hb.
Qed.

Lemma lower_app (a b : string) :
  lower (a ++ b) = (lower a ++ lower b)%string.
Proof. induction a as [|c a IH]; cbn; [reflexivity | now rewrite IH]. Qed.

Lemma prefix_app (n b : string) : String.prefix n (n ++ b) = true.
Proof.
  induction n as [|c n IH]; cbn; [now destruct b|].
  destruct (ascii_dec c c); [exact IH | congruence].
Qed.

Lemma contains_middle (n a b : string) : contains n (a ++ n ++ b) = true.
Proof.
  induction a as [|c a IH].
  - cbn [append]. destruct (n ++ b)%string eqn:E.
    + cbn. destruct n; [reflexivity | discriminate].
    + cbn [contains]. rewrite <- E, prefix_app. reflexivity.
  - cbn [append contains]. rewrite IH. now destruct (String.prefix _ _).
Qed.

Lemma safe_char_no_space (c : ascii) :
  safe_char c = true -> is_space c = false.
Proof.
  destruct c as [[] [] [] [] [] [] [] []]; vm_compute; congruence.
Qed.

Lemma all_safe_lstrip (s : string) :
  all_chars safe_char s = true -> lstrip s = s.
Proof.
  destruct s as [|c s]; [reflexivity|]. cbn. intro H.
  apply andb_true_iff in H. destruct H as [H _].
  now rewrite (safe_char_no_space _ H).
Qed.

Lemma all_safe_rstrip (s : string) :
  all_chars safe_char s = true -> rstrip s = s.
Proof.
  induction s as [|c s IH]; [reflexivity|]. cbn. intro H.
  apply andb_true_iff in H. destruct H as [Hc Hs].
  rewrite (IH Hs). destruct s; [|reflexivity].
  now rewrite (safe_char_no_space _ Hc).
Qed.

Lemma re_sub_unsafe_all_safe (b : bool) (s : string) :
  all_chars safe_char (re_sub_unsafe b s) = true.
Proof.
  revert b; induction s as [|c s IH]; intro b; [reflexivity|]. cbn.
  destruct (safe_char c) eqn:E.
  - cbn. now rewrite E, IH.
  - destruct b; [apply IH|]. cbn. apply IH.
Qed.

Lemma re_sub_unsafe_fixes_safe (b : bool) (s : string) :
  all_chars safe_char s = true -> re_sub_unsafe b s = s.
Proof.
  revert b; induction s as [|c s IH]; intros b H; [reflexivity|]. cbn in *.
  apply andb_true_iff in H. destruct H as [Hc Hs].
  now rewrite Hc, (IH false Hs).
Qed.

Lemma sanitize_filename_all_safe (t : string) :
  all_chars safe_char (sanitize_filename t) = true.
Proof.
  unfold sanitize_filename, str_or.
  destruct (re_sub_unsafe false (strip t)) eqn:E; [reflexivity|].
  cbn [str_truthy]. rewrite <- E. apply re_sub_unsafe_all_safe.
Qed.

Lemma sanitize_filename_nonempty (t : string) :
  sanitize_filename t <> EmptyString.
Proof.
  unfold sanitize_filename, str_or.
  destruct (re_sub_unsafe false (strip t)); cbn; discriminate.
Qed.

Lemma sanitize_filename_fixes_safe (t : string) :
  all_chars safe_char t = true -> t <> EmptyString ->
  sanitize_filename t = t.
Proof.
  intros H Hne. unfold sanitize_filename, strip.
  rewrite (all_safe_lstrip _ H), (all_safe_rstrip _ H).
  rewrite (re_sub_unsafe_fixes_safe _ _ H). now destruct t.
Qed.


(* ================================================================== *)
(** * Facts about well-formed stores and about lookups                 *)
(* ================================================================== *)



Lemma positive_id_truthy (bound : Z) (r : row) :
  (exists n, ID r = PInt n /\ 1 <= n < bound) -> truthy (ID r) = true.
Proof.
  intros (n & E & Hn). rewrite E. cbn.
  destruct (Z.eqb_spec n 0); [lia | reflexivity].
Qed.

Lemma positive_id_not_blank (bound : Z) (r : row) :
  (exists n, ID r = PInt n /\ 1 <= n < bound) -> blank_row r = false.
Proof.
  intros (n & E & _). unfold blank_row. now rewrite E.
Qed.

Lemma positive_ids_listed (bound : Z) (rows : sheet) :
  Forall (fun r => exists n, ID r = PInt n /\ 1 <= n < bound) rows ->
  spec_listAll rows = map note_of_row rows.
Proof.
  induction rows as [|r rows IH]; intro H; [reflexivity|].
  inversion H as [|? ? Hr Hrest]; subst.
  rewrite spec_listAll_cons, (positive_id_truthy _ _ Hr). cbn. f_equal.
  now apply IH.
Qed.

Lemma positive_ids_end_with_cells (bound : Z) (rows : sheet) :
  Forall (fun r => exists n, ID r = PInt n /\ 1 <= n < bound) rows ->
  ends_with_cells rows.
Proof.
  intros H pre r E. rewrite Forall_forall in H.
  apply (positive_id_not_blank bound). apply H. rewrite E.
  apply in_or_app. right. now left.
Qed.

Lemma positive_ids_ints (bound : Z) (rows : sheet) :
  bound <= max_exact_id + 1 ->
  Forall (fun r => exists n, ID r = PInt n /\ 1 <= n < bound) rows ->
  exists zs,
    note_ints (map note_of_row rows) = Ok zs
    /\ Forall (fun z => 1 <= z < bound) zs
    /\ List.length zs = List.length rows.
Proof.
  intro Hb. induction rows as [|r rows IH]; intro H.
  - exists []. repeat split. constructor.
  - inversion H as [|? ? (n & E & Hn) Hrest]; subst.
    destruct (IH Hrest) as (zs & Hz & Hf & Hl).
    exists (n :: zs). cbn [map note_ints note_of_row Note.id].
    rewrite E. cbn [py_str]. rewrite py_int_str_of_small by lia.
    rewrite Hz. repeat split; [now constructor | cbn; now rewrite Hl].
Qed.

(** On rows with positive integer IDs below [bound], [get_next_id] returns
    an ID that is above them all and at most [bound]. *)
Lemma positive_ids_next_id (bound : Z) (rows : sheet) :
  1 <= bound <= max_exact_id + 1 ->
  Forall (fun r => exists n, ID r = PInt n /\ 1 <= n < bound) rows ->
  exists n,
    get_next_id (spec_listAll rows) = Ok n /\ 1 <= n <= bound
    /\ forall r, In r rows -> row_key r <> str_of_Z n.
Proof.
  intros Hb H. rewrite (positive_ids_listed _ _ H).
  destruct (positive_ids_ints bound rows ltac:(lia) H) as (zs & Hz & Hf & Hl).
  assert (Hn : exists n, get_next_id (map note_of_row rows) = Ok n
                         /\ 1 <= n <= bound).
  { destruct zs as [|z zs].
    - destruct rows; [|discriminate Hl]. exists 1. split; [reflexivity | lia].
    - exists (py_max z zs + 1). split; [now apply get_next_id_nonempty|].
      pose proof (py_max_in z zs) as Hin. rewrite Forall_forall in Hf.
      specialize (Hf _ Hin). lia. }
  destruct Hn as (n & Hn & Hr). exists n. split; [exact Hn|].
  split; [exact Hr|]. intros r Hin.
  apply (get_next_id_fresh _ _ Hn (note_of_row r)). now apply in_map.
Qed.



Lemma well_formed_next_id_exact {ox : Openpyxl} (b : Z) (rows : sheet) :
  1 <= b <= max_exact_id ->
  well_formed_below b rows -> next_id_exact rows.
Proof.
  intros Hb (Hpos & _ & _) n Hn.
  destruct (positive_ids_next_id b rows ltac:(lia) Hpos) as (n' & Hn' & Hr & _).
  rewrite Hn in Hn'. injection Hn' as <-. lia.
Qed.



Lemma NoDup_delete_row (s : string) (rows : sheet) :
  NoDup (map row_key rows) -> NoDup (map row_key (delete_row s rows)).
Proof.
  induction rows as [|r rows IH]; intro Hnd; [constructor|].
  cbn in *. inversion Hnd as [|? ? Hnotin Hrest]; subst.
  destruct (String.eqb (py_str (ID r)) s); [exact Hrest|].
  cbn. constructor; [|now apply IH].
  intro Hin. apply Hnotin. apply in_map_iff in Hin.
  destruct Hin as (x & <- & Hx). apply in_map.
  now apply (delete_row_incl s).
Qed.

Lemma well_formed_delete {ox : Openpyxl} (b : Z) (s : string) (rows : sheet) :
  well_formed_below b rows ->
  drop_trailing_blank (delete_row s rows) = delete_row s rows
  /\ well_formed_below b (delete_row s rows).
Proof.
  intros (Hpos & Hnd & Hset).
  assert (Hpos' : Forall (fun r => exists n, ID r = PInt n /\ 1 <= n < b)
                    (delete_row s rows)).
  { apply Forall_forall. intros x Hx. rewrite Forall_forall in Hpos.
    apply Hpos. now apply (delete_row_incl s). }
  assert (D : drop_trailing_blank (delete_row s rows) = delete_row s rows).
  { apply drop_trailing_blank_fixed.
    now apply (positive_ids_end_with_cells b). }
  split; [exact D|]. split; [exact Hpos' | split].
  - now apply NoDup_delete_row.
  - rewrite <- D. now apply settled_delete.
Qed.


Lemma written_in (before after : sheet) (r' : row) :
  written before after r' -> In r' after.
Proof.
  intros [(pre & r & post & _ & -> & _) | ->]; apply in_or_app; right;
    now left.
Qed.




Lemma find_in_delete_other (s s' : string) (rows : sheet) :
  s <> s' ->
  find_in s' (spec_listAll (delete_row s rows)) = find_in s' (spec_listAll rows).
Proof.
  intro Hne. induction rows as [|r rows IH]; [reflexivity|].
  cbn [delete_row]. destruct (String.eqb_spec (py_str (ID r)) s) as [E|E].
  - rewrite spec_listAll_cons. destruct (truthy (ID r)); [|reflexivity].
    cbn. destruct (String.eqb_spec (py_str (ID r)) s'); [congruence|].
    reflexivity.
  - rewrite !spec_listAll_cons. destruct (truthy (ID r)); [|exact IH].
    cbn. now rewrite IH.
Qed.




(* ================================================================== *)
(** * Further properties of the record store                           *)
(* ================================================================== *)

(** X1.  Every store operation treats a missing file as the file with the
    header only: it gives the same result and the same final file.  No
    operation raises [FileNotFoundError], and after each the file exists. *)
Theorem missing_file_is_empty_store {ox : Openpyxl}
    (now : string) (nid : option string) (t c s : string) :
  (load_notes None = load_notes (Some (mkWorkbook []))
   /\ find_note s None = find_note s (Some (mkWorkbook []))
   /\ save_note now nid t c None = save_note now nid t c (Some (mkWorkbook []))
   /\ delete_note s None = delete_note s (Some (mkWorkbook [])))
  /\ forall db,
       (fst (load_notes db) <> Raise FileNotFoundError
        /\ snd (load_notes db) <> None)
       /\ (fst (find_note s db) <> Raise FileNotFoundError
           /\ snd (find_note s db) <> None)
       /\ (fst (save_note now nid t c db) <> Raise FileNotFoundError
           /\ snd (save_note now nid t c db) <> None)
       /\ (fst (delete_note s db) <> Raise FileNotFoundError
           /\ snd (delete_note s db) <> None).
Proof.
  split.
  - repeat split.
  - intro db. rewrite load_notes_run, find_note_run.
    cbn [fst snd]. repeat split; try discriminate.
    + destruct (save_note now nid t c db) as [[saved|e] db'] eqn:E; cbn [fst];
        [discriminate|].
      apply save_note_raises in E. destruct E as [[-> | [-> | ->]] _]; discriminate.
    + apply save_note_file_exists.
    + rewrite delete_note_run.
      destruct (reload _) as [rows|e] eqn:E; cbn [fst]; [discriminate|].
      apply reload_raise in E. subst e. discriminate.
    + rewrite delete_note_run. destruct (reload _); discriminate.
Qed.





(** X4.  On a store as a file holds it [delete_note] removes the first row
    seen under the id: the rows before and after it stay, in their order,
    up to the last row with a cell.  They all stay when a row follows the
    removed one, and when no row before it is blank. *)
Theorem delete_note_removes_first_match {ox : Openpyxl}
    (s : string) (db : database) (pre : sheet) (r : row) (post : sheet) :
  data_rows db = pre ++ r :: post ->
  absent s pre ->
  row_key r = s ->
  settled (data_rows db) ->
  delete_note s db
  = (Ok tt, Some (mkWorkbook (drop_trailing_blank (pre ++ post))))
  /\ (post <> [] -> drop_trailing_blank (pre ++ post) = pre ++ post)
  /\ ((forall x, In x pre -> blank_row x = false) ->
      drop_trailing_blank (pre ++ post) = pre ++ post)
  /\ List.length (pre ++ post) = (List.length (data_rows db) - 1)%nat.
Proof.
  intros Hrows Hpre Hr Hset.
  assert (He : ends_with_cells (pre ++ r :: post)).
  { rewrite <- Hrows. now apply settled_iff in Hset. }
  assert (Hpost : post <> [] -> ends_with_cells (pre ++ post)).
  { intro Hne.
    change (pre ++ r :: post) with (pre ++ [r] ++ post) in He.
    rewrite List.app_assoc in He.
    exact (ends_with_cells_tail _ pre post Hne He). }
  split; [|split; [|split]].
  - rewrite (delete_note_settled _ _ Hset), Hrows.
    now rewrite (delete_row_first _ _ _ _ Hpre Hr).
  - intro Hne. now apply drop_trailing_blank_fixed, Hpost.
  - intro Hb. apply drop_trailing_blank_fixed.
    destruct post as [|y post]; [|apply Hpost; discriminate].
    rewrite List.app_nil_r. intros pre0 x E. apply Hb. rewrite E.
    apply in_or_app. right. now left.
  - rewrite Hrows, !length_app. cbn. lia.
Qed.

Lemma delete_note_removes_first_match_witness :
  let db :=
    Some (mkWorkbook
       [mkRow (PInt 1) (PStr "a") PNone (PStr "d") (PStr "d");
        mkRow (PInt 2) (PStr "b") PNone (PStr "d") (PStr "d");
        mkRow (PInt 2) (PStr "c") PNone (PStr "d") (PStr "d")]) in
  let pre := [mkRow (PInt 1) (PStr "a") PNone (PStr "d") (PStr "d")] in
  let post := [mkRow (PInt 2) (PStr "c") PNone (PStr "d") (PStr "d")] in
  delete_note "2" db
  = (Ok tt, Some (mkWorkbook (drop_trailing_blank (pre ++ post))))
  /\ (post <> [] -> drop_trailing_blank (pre ++ post) = pre ++ post)
  /\ ((forall x, In x pre -> blank_row x = false) ->
      drop_trailing_blank (pre ++ post) = pre ++ post)
  /\ List.length (pre ++ post) = (List.length (data_rows db) - 1)%nat.
Proof.
  intros db pre post.
  apply (delete_note_removes_first_match "2" db pre
           (mkRow (PInt 2) (PStr "b") PNone (PStr "d") (PStr "d")) post).
  - reflexivity.
  - intros x [<-|[]]. discriminate.
  - reflexivity.
  - vm_compute. reflexivity.
Defined.

(** X5.  On a store as a file holds it, deleting under one id does not
    change what [find_note] returns for any other id. *)
Theorem delete_note_keeps_other_notes {ox : Openpyxl}
    (s s' : string) (db : database) :
  s <> s' ->
  settled (data_rows db) ->
  fst (find_note s' (snd (delete_note s db))) = fst (find_note s' db).
Proof.
  intros Hne Hset. rewrite (delete_note_settled _ _ Hset), !find_note_run.
  cbn [fst snd data_rows active].
  rewrite spec_listAll_drop_trailing_blank.
  now rewrite (find_in_delete_other _ _ _ Hne).
Qed.

Lemma delete_note_keeps_other_notes_witness :
  fst (find_note "1"
         (snd (delete_note "2"
            (Some (mkWorkbook
               [mkRow (PInt 2) (PStr "b") PNone (PStr "d") (PStr "d");
                mkRow (PInt 1) (PStr "a") PNone (PStr "d") (PStr "d")])))))
  = fst (find_note "1"
           (Some (mkWorkbook
              [mkRow (PInt 2) (PStr "b") PNone (PStr "d") (PStr "d");
               mkRow (PInt 1) (PStr "a") PNone (PStr "d") (PStr "d")]))).
Proof.
  apply (delete_note_keeps_other_notes "2" "1").
  - discriminate.
  - vm_compute. reflexivity.
Defined.






(* ================================================================== *)
(** * Properties of the routes                                         *)
(* ================================================================== *)

Lemma index_run (db : database) :
  index db = (Ok (RenderIndex (spec_listAll (data_rows db))), opened db).
Proof. unfold index, bind. now rewrite load_notes_run. Qed.

Lemma view_note_run (s : string) (db : database) :
  view_note s db
  = (Ok match find_in s (spec_listAll (data_rows db)) with
        | None => RedirectIndex
        | Some n => RenderEditor n
        end,
     opened db).
Proof.
  unfold view_note, bind. rewrite find_note_run.
  now destruct (find_in s _).
Qed.

Lemma delete_run {ox : Openpyxl} (s : string) (db : database) :
  settled (data_rows db) ->
  delete s db
  = (Ok RedirectIndex,
     Some (mkWorkbook (drop_trailing_blank (delete_row s (data_rows db))))).
Proof.
  intro H. unfold delete, bind. now rewrite (delete_note_settled _ _ H).
Qed.

Lemma search_run (q : option string) (db : database) :
  search q db
  = (let query := lower (strip (form_get q "")) in
     if negb (str_truthy query) then jsonify (spec_listAll (data_rows db))
     else
       match search_matches query (spec_listAll (data_rows db)) with
       | Done ms => jsonify ms
       | Failed e => Failed e
       end,
     opened db).
Proof.
  unfold search. rewrite load_notes_run. cbv zeta.
  destruct (negb _); [reflexivity|]. now destruct (search_matches _ _).
Qed.

(** X8.  The reading operations never change an existing file: after
    [load_notes], [find_note] and the routes [index], [view_note],
    [search] and [export] the file is the one they found. *)
Theorem reads_leave_the_file (wb : workbook) (s : string) (q : option string) :
  snd (load_notes (Some wb)) = Some wb
  /\ snd (find_note s (Some wb)) = Some wb
  /\ snd (index (Some wb)) = Some wb
  /\ snd (view_note s (Some wb)) = Some wb
  /\ snd (search q (Some wb)) = Some wb
  /\ forall (crypto : Cryptography) pw e t,
       snd (fst (export s pw e t (Some wb))) = Some wb.
Proof.
  rewrite load_notes_run, find_note_run, index_run, view_note_run, search_run.
  cbn [snd]. rewrite opened_some. repeat split.
  intros crypto pw e t. unfold export.
  destruct (negb _); [reflexivity|]. rewrite find_note_run, opened_some.
  destruct (find_in s _) as [n|]; [|reflexivity].
  destruct (encrypt_note n _ e t) as [payload e'].
  now destruct (Note.title n).
Qed.

(** X9.  On a well-formed store the route [delete] redirects to the index
    and leaves a well-formed store in which the id is gone: [view_note] on
    it redirects to the index too. *)
Theorem delete_then_view_note {ox : Openpyxl} (s : string) (db : database) :
  well_formed (data_rows db) ->
  exists db',
    delete s db = (Ok RedirectIndex, db')
    /\ well_formed (data_rows db')
    /\ view_note s db' = (Ok RedirectIndex, db').
Proof.
  intro Hwf. pose proof Hwf as (_ & Hnd & Hset).
  destruct (well_formed_delete _ s _ Hwf) as [D Hwf'].
  eexists. split; [now apply delete_run|]. cbn [data_rows active].
  rewrite D. split; [exact Hwf'|].
  rewrite view_note_run. cbn [data_rows active opened].
  rewrite find_in_absent; [reflexivity|].
  now apply delete_row_at_most_once, nodup_seen_at_most_once.
Qed.

Lemma delete_then_view_note_witness :
  exists db',
    delete "2"
      (Some (mkWorkbook
         [mkRow (PInt 1) (PStr "a") PNone (PStr "d") (PStr "d");
          mkRow (PInt 2) (PStr "b") PNone (PStr "d") (PStr "d")]))
    = (Ok RedirectIndex, db')
    /\ well_formed (data_rows db')
    /\ view_note "2" db' = (Ok RedirectIndex, db').
Proof.
  apply delete_then_view_note. split; [|split].
  - repeat constructor; eexists;
      (split; [reflexivity | unfold max_exact_id; lia]).
  - cbn. repeat constructor; cbn; intuition discriminate.
  - vm_compute. reflexivity.
Defined.





Lemma lstrip_length (s : string) :
  (String.length (lstrip s) <= String.length s)%nat.
Proof.
  induction s as [|c s IH]; cbn; [lia|]. destruct (is_space c); cbn; lia.
Qed.

Lemma rstrip_length (s : string) :
  (String.length (rstrip s) <= String.length s)%nat.
Proof.
  induction s as [|c s IH]; [cbn; lia|]. rewrite rstrip_cons.
  destruct (rstrip s); [destruct (is_space c)|]; cbn in *; lia.
Qed.

Lemma re_sub_unsafe_length (b : bool) (s : string) :
  (String.length (re_sub_unsafe b s) <= String.length s)%nat.
Proof.
  revert b; induction s as [|c s IH]; intro b; cbn; [lia|].
  destruct (safe_char c); cbn.
  - specialize (IH false). lia.
  - destruct b; cbn; specialize (IH true); lia.
Qed.

(** X12.  [sanitize_filename] never returns the empty string, returns only
    characters of [a-zA-Z0-9_-], and what it returns is not longer than the
    title unless it is the stand-in "untitled". *)
Theorem sanitize_filename_is_safe (t : string) :
  sanitize_filename t <> EmptyString
  /\ all_chars safe_char (sanitize_filename t) = true
  /\ (String.length (sanitize_filename t)
      <= Nat.max (String.length t) 8)%nat.
Proof.
  split; [apply sanitize_filename_nonempty|].
  split; [apply sanitize_filename_all_safe|].
  unfold sanitize_filename, str_or.
  pose proof (re_sub_unsafe_length false (strip t)) as H1.
  pose proof (rstrip_length (lstrip t)) as H2.
  pose proof (lstrip_length t) as H3. unfold strip in *.
  destruct (re_sub_unsafe false (rstrip (lstrip t))); cbn in *; lia.
Qed.

(** X13.  A title that is not empty and made of characters of
    [a-zA-Z0-9_-] only is returned as it is; hence [sanitize_filename]
    applied twice gives what it gives applied once. *)
Theorem sanitize_filename_idempotent (t : string) :
  (all_chars safe_char t = true -> t <> EmptyString ->
   sanitize_filename t = t)
  /\ sanitize_filename (sanitize_filename t) = sanitize_filename t.
Proof.
  split; [apply sanitize_filename_fixes_safe|].
  apply sanitize_filename_fixes_safe.
  - apply sanitize_filename_all_safe.
  - apply sanitize_filename_nonempty.
Qed.

Lemma sanitize_filename_idempotent_witness :
  sanitize_filename "Shopping-List_2" = "Shopping-List_2"%string
  /\ sanitize_filename (sanitize_filename "  a  b/c.txt ")
     = sanitize_filename "  a  b/c.txt ".
Proof.
  split.
  - apply (proj1 (sanitize_filename_idempotent "Shopping-List_2"));
      [reflexivity | discriminate].
  - apply (proj2 (sanitize_filename_idempotent "  a  b/c.txt ")).
Defined.

(** X14.  [export] without a password (none posted, or an empty one)
    redirects to the note and touches neither the file nor the random
    source.  When it sends a file, a non-empty password was posted, a
    listed record has the id, the payload is [encrypt_note] of that record
    under that password, and the download name is "note_", the sanitized
    title and ".secure"; the data rows are as before. *)
Theorem export_sends_file_only_with_password
    {crypto : Cryptography} (s : string) (pw : option string) (e : entropy)
    (t : Z) (db : database) :
  (pw = None \/ pw = Some EmptyString ->
   export s pw e t db = (Done (RedirectViewNote s), db, e))
  /\ forall payload name db' e',
       export s pw e t db = (Done (SendFile payload name), db', e') ->
       exists password n ti,
         pw = Some password
         /\ password <> EmptyString
         /\ find_in s (spec_listAll (data_rows db)) = Some n
         /\ Note.title n = PStr ti
         /\ payload = fst (encrypt_note n password e t)
         /\ name = ("note_" ++ sanitize_filename ti ++ ".secure")%string
         /\ sanitize_filename ti <> EmptyString
         /\ all_chars safe_char (sanitize_filename ti) = true
         /\ data_rows db' = data_rows db.
Proof.
  split.
  - intros [-> | ->]; reflexivity.
  - intros payload name db' e'. unfold export.
    destruct pw as [[|c password]|]; cbn [form_get str_truthy negb];
      try discriminate.
    rewrite find_note_run. destruct (find_in s _) as [n|] eqn:Hf;
      [|discriminate].
    destruct (encrypt_note n (String c password) e t) as [p e1] eqn:He.
    destruct (Note.title n) as [| | |ti|] eqn:Ht; try discriminate.
    intro H. injection H as <- <- <- <-.
    exists (String c password), n, ti. rewrite He.
    split; [reflexivity|]. split; [discriminate|].
    do 4 (split; [reflexivity || assumption|]).
    split; [apply sanitize_filename_nonempty|].
    split; [apply sanitize_filename_all_safe | reflexivity].
Qed.

Lemma export_sends_file_only_with_password_witness :
  let db := Some (mkWorkbook
              [mkRow (PInt 1) (PStr "My note!") (PStr "c") (PStr "d")
                 (PStr "d")]) in
  let e := fun _ : nat => x41 in
  exists password n ti,
    Some "pw"%string = Some password
    /\ password <> EmptyString
    /\ find_in "1" (spec_listAll (data_rows db)) = Some n
    /\ Note.title n = PStr ti
    /\ fst (@encrypt_note plain_primitives
              (note_of_row (mkRow (PInt 1) (PStr "My note!") (PStr "c")
                              (PStr "d") (PStr "d")))
              "pw" e 0)
       = fst (@encrypt_note plain_primitives n password e 0)
    /\ "note_My_note_.secure"%string
       = ("note_" ++ sanitize_filename ti ++ ".secure")%string
    /\ sanitize_filename ti <> EmptyString
    /\ all_chars safe_char (sanitize_filename ti) = true
    /\ data_rows db = data_rows db.
Proof.
  intros db e.
  apply (proj2 (@export_sends_file_only_with_password plain_primitives
                  "1" (Some "pw"%string) e 0 db)
           _ _ db e).
  reflexivity.
Defined.

(** X15.  [export] with a password, on a listed record whose title is no
    string (a number typed into the sheet), raises [AttributeError] instead
    of sending a file. *)
Theorem export_non_text_title_raises
    {crypto : Cryptography} (s password : string) (e : entropy) (t : Z)
    (db : database) (n : note) :
  password <> EmptyString ->
  find_in s (spec_listAll (data_rows db)) = Some n ->
  not_text (Note.title n) ->
  fst (fst (export s (Some password) e t db)) = Failed AttributeError.
Proof.
  intros Hp Hf Ht. unfold export. cbn [form_get].
  destruct password; [congruence|]. cbn [str_truthy negb].
  rewrite find_note_run, Hf.
  destruct (encrypt_note n _ e t) as [p e1].
  destruct (Note.title n); cbn in Ht; [reflexivity.. | contradiction | reflexivity].
Qed.

Lemma export_non_text_title_raises_witness :
  fst (fst (@export plain_primitives "1" (Some "pw"%string)
              (fun _ => x41) 0
              (Some (mkWorkbook
                 [mkRow (PInt 1) (PInt 2026) (PStr "c") (PStr "d")
                    (PStr "d")]))))
  = Failed AttributeError.
Proof.
  apply (@export_non_text_title_raises plain_primitives "1" "pw" _ 0 _
           (note_of_row (mkRow (PInt 1) (PInt 2026) (PStr "c") (PStr "d")
                           (PStr "d")))).
  - discriminate.
  - reflexivity.
  - exact I.
Defined.
Lemma contains_empty (hay : string) : contains EmptyString hay = true.
Proof. destruct hay; reflexivity. Qed.

Lemma contains_stripped_lower (s : string) :
  contains (lower (strip s)) (lower s) = true.
Proof.
  destruct (strip_middle s) as (a & b & E). rewrite E at 2.
  rewrite !lower_app. apply contains_middle.
Qed.

Lemma note_matches_text (query : string) (n : note) :
  (exists s, Note.title n = PStr s) /\ (exists s, Note.content n = PStr s) ->
  note_matches query n = Done (text_matches query n).
Proof.
  intros [(ti & Ht) (co & Hc)]. unfold note_matches, text_matches.
  rewrite Ht, Hc. cbn. now destruct (contains query (lower ti)).
Qed.

Lemma search_matches_text (query : string) (notes : list note) :
  text_only notes ->
  search_matches query notes = Done (filter (text_matches query) notes).
Proof.
  induction notes as [|n notes IH]; intro H; [reflexivity|].
  inversion H as [|? ? Hn Hrest]; subst. cbn.
  rewrite (note_matches_text _ _ Hn), (IH Hrest). reflexivity.
Qed.

Lemma filter_all {A : Type} (p : A -> bool) (l : list A) :
  (forall x, In x l -> p x = true) -> filter p l = l.
Proof.
  induction l as [|x l IH]; intro H; [reflexivity|]. cbn.
  rewrite (H x (or_introl eq_refl)). f_equal. apply IH.
  intros y Hy. apply H. now right.
Qed.

Lemma jsonify_ok (notes : list note) :
  forallb note_json_ok notes = true -> jsonify notes = Done (Json notes).
Proof. unfold jsonify. now intros ->. Qed.

Lemma jsonify_error (notes : list note) (e : web_exn) :
  jsonify notes = Failed e ->
  e = TypeError /\ Exists (fun n => note_json_ok n = false) notes.
Proof.
  unfold jsonify. destruct (forallb note_json_ok notes) eqn:E; [discriminate|].
  intro H. injection H as <-. split; [reflexivity|].
  induction notes as [|n notes IH]; [discriminate|]. cbn in E.
  destruct (note_json_ok n) eqn:En.
  - apply Exists_cons_tl. now apply IH.
  - now apply Exists_cons_hd.
Qed.

Lemma forallb_filter {A : Type} (p q : A -> bool) (l : list A) :
  forallb p l = true -> forallb p (filter q l) = true.
Proof.
  induction l as [|x l IH]; [reflexivity|]. cbn. intro H.
  apply andb_true_iff in H. destruct H as [Hx Hl].
  destruct (q x); cbn; [rewrite Hx|]; now apply IH.
Qed.

Lemma search_text_run (q : option string) (db : database) :
  text_only (spec_listAll (data_rows db)) ->
  forallb note_json_ok (spec_listAll (data_rows db)) = true ->
  search q db
  = (Done (Json (filter (text_matches (lower (strip (form_get q ""))))
                   (spec_listAll (data_rows db)))),
     opened db).
Proof.
  intros H J. rewrite search_run. cbv zeta.
  destruct (lower (strip (form_get q ""))) as [|c query] eqn:E.
  - cbn [str_truthy negb]. rewrite (jsonify_ok _ J).
    rewrite filter_all; [reflexivity|].
    intros n _. unfold text_matches. now rewrite contains_empty.
  - cbn [str_truthy negb]. rewrite (search_matches_text _ _ H).
    rewrite jsonify_ok; [reflexivity|]. now apply forallb_filter.
Qed.

(** X16.  On a store whose listed titles and contents are all strings and
    whose listed records [jsonify] serialises, [search] never raises: it
    returns, in the order of the listing, exactly the listed notes whose
    lower-cased title or content contains the stripped, lower-cased query;
    with a blank query these are all. *)
Theorem search_on_text_store (q : option string) (db : database) :
  text_only (spec_listAll (data_rows db)) ->
  forallb note_json_ok (spec_listAll (data_rows db)) = true ->
  let query := lower (strip (form_get q "")) in
  search q db
  = (Done (Json (filter (text_matches query) (spec_listAll (data_rows db)))),
     opened db)
  /\ (query = EmptyString ->
      search q db = (Done (Json (spec_listAll (data_rows db))), opened db)).
Proof.
  intros H J query. split; [now apply search_text_run|].
  intro E. rewrite search_run. cbv zeta. fold query. rewrite E.
  cbn [str_truthy negb]. now rewrite (jsonify_ok _ J).
Qed.

Lemma search_on_text_store_witness :
  let db := Some (mkWorkbook
              [mkRow (PInt 1) (PStr "Shopping") (PStr "milk") (PStr "d")
                 (PStr "d");
               mkRow (PInt 2) (PStr "Work") PNone (PStr "d") (PStr "d");
               mkRow (PInt 3) (PStr "x") (PStr "SHOP hours") (PStr "d")
                 (PStr "d")]) in
  let query := lower (strip (form_get (Some "  Shop "%string) "")) in
  search (Some "  Shop "%string) db
  = (Done (Json (filter (text_matches query) (spec_listAll (data_rows db)))),
     opened db)
  /\ (query = EmptyString ->
      search (Some "  Shop "%string) db
      = (Done (Json (spec_listAll (data_rows db))), opened db)).
Proof.
  intros db. apply (search_on_text_store (Some "  Shop "%string) db).
  - repeat constructor; eexists; reflexivity.
  - reflexivity.
Defined.

(** X17.  On such a store, searching for the title of a listed note, or
    for its content, as it stands, returns that note among the matches. *)
Theorem search_finds_own_text (db : database) (n : note) (text : string) :
  text_only (spec_listAll (data_rows db)) ->
  forallb note_json_ok (spec_listAll (data_rows db)) = true ->
  In n (spec_listAll (data_rows db)) ->
  Note.title n = PStr text \/ Note.content n = PStr text ->
  exists ms, search (Some text) db = (Done (Json ms), opened db) /\ In n ms.
Proof.
  intros H J Hn Ht. eexists. split; [now apply search_text_run|].
  apply filter_In. split; [exact Hn|]. cbn [form_get].
  unfold text_matches. apply orb_true_iff.
  destruct Ht as [-> | ->]; [left | right]; apply contains_stripped_lower.
Qed.

Lemma search_finds_own_text_witness :
  exists ms,
    search (Some " Shopping List "%string)
      (Some (mkWorkbook
         [mkRow (PInt 1) (PStr "a") PNone (PStr "d") (PStr "d");
          mkRow (PInt 2) (PStr " Shopping List ") PNone (PStr "d")
            (PStr "d")]))
    = (Done (Json ms),
       opened (Some (mkWorkbook
         [mkRow (PInt 1) (PStr "a") PNone (PStr "d") (PStr "d");
          mkRow (PInt 2) (PStr " Shopping List ") PNone (PStr "d")
            (PStr "d")])))
    /\ In (note_of_row
             (mkRow (PInt 2) (PStr " Shopping List ") PNone (PStr "d")
                (PStr "d"))) ms.
Proof.
  apply search_finds_own_text.
  - repeat constructor; eexists; reflexivity.
  - reflexivity.
  - right. left. reflexivity.
  - left. reflexivity.
Defined.

Lemma note_matches_fails (query : string) (n : note) :
  note_matches query n = Failed AttributeError
  <-> not_text (Note.title n)
      \/ (contains query (lower (py_str (Note.title n))) = false
          /\ not_text (Note.content n)).
Proof.
  unfold note_matches.
  destruct (Note.title n) as [| | |ti|]; cbn;
    try (split; [intros _; left; exact I | reflexivity]).
  destruct (contains query (lower ti)).
  - split; [discriminate | intros [[]|[H _]]; discriminate].
  - destruct (Note.content n); cbn;
      try (split; [intros _; right; split; [reflexivity | exact I]
                  | reflexivity]).
    split; [discriminate | intros [[]|[_ []]]].
Qed.

Lemma note_matches_error (query : string) (n : note) (e : web_exn) :
  note_matches query n = Failed e -> e = AttributeError.
Proof.
  unfold note_matches.
  destruct (Note.title n); cbn; try congruence.
  destruct (contains query (lower s)); [discriminate|].
  destruct (Note.content n); cbn; congruence.
Qed.

Lemma search_matches_fails (query : string) (notes : list note) :
  search_matches query notes = Failed AttributeError
  <-> Exists (fun n => note_matches query n = Failed AttributeError) notes.
Proof.
  induction notes as [|n notes IH]; cbn.
  - split; [discriminate | intro H; inversion H].
  - destruct (note_matches query n) as [b|e] eqn:E.
    + destruct (search_matches query notes) as [ms|e'].
      * split; [discriminate|]. intro H. inversion H as [? ? H1|? ? H1]; subst.
        -- congruence.
        -- apply IH in H1. discriminate.
      * split.
        -- intro H. apply Exists_cons_tl. apply IH. congruence.
        -- intro H. inversion H as [? ? H1|? ? H1]; subst; [congruence|].
           apply IH in H1. congruence.
    + rewrite (note_matches_error _ _ _ E). split; [|reflexivity].
      intros _. apply Exists_cons_hd. now rewrite <- (note_matches_error _ _ _ E).
Qed.

Lemma search_matches_error (query : string) (notes : list note) (e : web_exn) :
  search_matches query notes = Failed e -> e = AttributeError.
Proof.
  induction notes as [|n notes IH]; cbn; [discriminate|].
  destruct (note_matches query n) as [b|e'] eqn:E.
  - destruct (search_matches query notes); [discriminate|].
    intro H. injection H as <-. now apply IH.
  - intro H. injection H as <-. now apply (note_matches_error _ _ _ E).
Qed.

Lemma search_matches_incl (query : string) (notes ms : list note) :
  search_matches query notes = Done ms -> incl ms notes.
Proof.
  revert ms; induction notes as [|n notes IH]; intros ms; cbn.
  - intro H. injection H as <-. intros x [].
  - destruct (note_matches query n) as [b|]; [|discriminate].
    destruct (search_matches query notes) as [ms'|]; [|discriminate].
    intro H. injection H as <-. specialize (IH ms' eq_refl).
    destruct b.
    + intros x [<-|Hx]; [now left | right; now apply IH].
    + intros x Hx. right. now apply IH.
Qed.

Lemma Exists_iff {A : Type} (P Q : A -> Prop) (l : list A) :
  (forall x, P x <-> Q x) -> Exists P l <-> Exists Q l.
Proof.
  intro H. rewrite !Exists_exists. split; intros (x & Hx & Hp); exists x;
    (split; [exact Hx | now apply H]).
Qed.

Lemma Exists_incl {A : Type} (P : A -> Prop) (l l' : list A) :
  incl l l' -> Exists P l -> Exists P l'.
Proof.
  intros Hi H. rewrite Exists_exists in *. destruct H as (x & Hx & Hp).
  exists x. split; [now apply Hi | exact Hp].
Qed.

(** X18.  [search] with a blank query hands all listed notes to [jsonify],
    which returns them unless it meets a value that it does not serialise,
    and then raises [TypeError].  With another query it raises
    [AttributeError] exactly when some listed note has a title that is no
    string, or a string title that does not contain the query together
    with a content that is no string.  It raises nothing but these two, and
    [TypeError] only when some listed record holds a value that [jsonify]
    does not serialise. *)
Theorem search_raises_on_non_text (q : option string) (db : database) :
  let query := lower (strip (form_get q "")) in
  (query = EmptyString ->
   fst (search q db)
   = if forallb note_json_ok (spec_listAll (data_rows db))
     then Done (Json (spec_listAll (data_rows db)))
     else Failed TypeError)
  /\ (query <> EmptyString ->
      (fst (search q db) = Failed AttributeError
       <-> Exists (fun n =>
                     not_text (Note.title n)
                     \/ (contains query (lower (py_str (Note.title n))) = false
                         /\ not_text (Note.content n)))
             (spec_listAll (data_rows db))))
  /\ (forall e, fst (search q db) = Failed e ->
                e = AttributeError \/ e = TypeError)
  /\ (fst (search q db) = Failed TypeError ->
      Exists (fun n => note_json_ok n = false) (spec_listAll (data_rows db))).
Proof.
  intro query. rewrite search_run. cbv zeta. fold query. cbn [fst].
  split; [|split; [|split]].
  - intros ->. reflexivity.
  - intro Hne. destruct query as [|c query']; [congruence|].
    cbn [str_truthy negb].
    rewrite <- (Exists_iff _ _ _ (note_matches_fails (String c query'))).
    rewrite <- search_matches_fails.
    destruct (search_matches _ _) as [ms|e]; [|split; congruence].
    split; [|discriminate]. intro H. apply jsonify_error in H.
    destruct H as [H _]. discriminate H.
  - intros e. destruct (negb _).
    + intro H. apply jsonify_error in H. right. apply H.
    + destruct (search_matches query _) as [ms|e'] eqn:E.
      * intro H. apply jsonify_error in H. right. apply H.
      * intro H. injection H as <-. left.
        now apply (search_matches_error _ _ _ E).
  - destruct (negb _).
    + intro H. apply jsonify_error in H. apply H.
    + destruct (search_matches query _) as [ms|e'] eqn:E.
      * intro H. apply jsonify_error in H. destruct H as [_ H].
        apply (Exists_incl _ ms); [|exact H].
        now apply (search_matches_incl query).
      * intro H. injection H as ->.
        apply search_matches_error in E. discriminate E.
Qed.

Lemma search_raises_on_non_text_witness :
  fst (search (Some "a"%string)
         (Some (mkWorkbook
            [mkRow (PInt 1) (PStr "abc") (PInt 5) (PStr "d") (PStr "d");
             mkRow (PInt 2) (PStr "xyz") (PInt 5) (PStr "d") (PStr "d")])))
  = Failed AttributeError.
Proof.
  apply (proj1 (proj2 (search_raises_on_non_text (Some "a"%string)
                         (Some (mkWorkbook
            [mkRow (PInt 1) (PStr "abc") (PInt 5) (PStr "d") (PStr "d");
             mkRow (PInt 2) (PStr "xyz") (PInt 5) (PStr "d") (PStr "d")]))))).
  - discriminate.
  - apply Exists_cons_tl, Exists_cons_hd. right. split; [reflexivity | exact I].
Defined.

(* ================================================================== *)
(** * A further property of the secure exporter                        *)
(* ================================================================== *)

Lemma urlsafe_b64_char (n : Z) :
  urlsafe_byte (urlsafe_translate (b64_char n)) = true.
Proof.
  unfold b64_char. generalize (Z.to_nat n) as k. intro k.
  do 64 (destruct k as [|k]; [reflexivity|]). reflexivity.
Qed.

Lemma urlsafe_b64encode_alphabet (data : bytes) :
  forallb urlsafe_byte (urlsafe_b64encode data) = true.
Proof.
  unfold urlsafe_b64encode.
  induction data as [|a|a b|a b c rest IH] using list_ind3;
    cbn [b64encode map forallb]; rewrite ?urlsafe_b64_char; try reflexivity.
  exact IH.
Qed.

(** X19.  When PBKDF2 hands back as many bytes as it is asked for,
    [derive_key] returns a key in the format Fernet takes: 44 characters of
    the url-safe base64 alphabet (with the padding sign). *)
Theorem derive_key_is_fernet_key
    {crypto : Cryptography} (password : string) (salt : bytes) :
  (forall h len s it pw, List.length (pbkdf2_hmac h len s it pw) = len) ->
  List.length (derive_key password salt) = 44%nat
  /\ forallb urlsafe_byte (derive_key password salt) = true.
Proof.
  intro Hlen. unfold derive_key. split.
  - unfold urlsafe_b64encode. rewrite length_map, b64encode_length, Hlen.
    reflexivity.
  - apply urlsafe_b64encode_alphabet.
Qed.

Lemma derive_key_is_fernet_key_witness :
  List.length (@derive_key plain_primitives "pw" [x01; x02]) = 44%nat
  /\ forallb urlsafe_byte (@derive_key plain_primitives "pw" [x01; x02])
     = true.
Proof.
  apply (@derive_key_is_fernet_key plain_primitives "pw" [x01; x02]).
  intros h len s it pw. apply repeat_length.
Defined.
